(** * Air-quality-index service: the ingestion pipeline of [backend/main.py]

    A shallow embedding of the request path of the FastAPI backend:
    the start-up hook [lifespan], the range validator
    [validate_sensor_data], the serial reader [read_arduino_data], the two
    handlers [health_check] and [get_aqi_prediction], and the classifier
    [get_aqi_status].

    Python values are an inductive type, dictionaries are finite maps with
    string keys, exceptions are an explicit error type, and the two module
    globals [ser] and [model] live in a state record that every handler
    threads through a small state-and-exception monad. *)

From Stdlib Require Import QArith Qround Lqa.
From stdpp Require Import gmap strings list fin_maps pretty.

Local Open Scope Z_scope.

(** ** Numbers

    Python ints and finite floats are rationals, and the program only ever
    compares them, which is exact. [json.loads] also accepts the literals
    [NaN], [Infinity] and [-Infinity]. *)

Inductive number :=
| Fin (q : Q)
| PosInf
| NegInf
| NaN.

(** [a <= b] on Python numbers: every comparison with NaN is false. *)
Definition num_le (a b : number) : bool :=
  match a, b with
  | NaN, _ | _, NaN => false
  | NegInf, _ => true
  | _, PosInf => true
  | Fin x, Fin y => Qle_bool x y
  | _, _ => false
  end.

Definition of_Z (z : Z) : number := Fin (inject_Z z).

(** ** Values, as [json.loads] produces them *)

#[warnings="-register-all"]
Inductive pyval :=
| PyNone
| PyBool (b : bool)
| PyNum (n : number)
| PyStr (s : string)
| PyList (l : list pyval)
| PyDict (d : gmap string pyval).

Abbreviation dict := (gmap string pyval).

(** [bool] is a subclass of [int]; strings, lists and dicts do not order
    against an int. *)
Definition as_number (v : pyval) : option number :=
  match v with
  | PyNum n => Some n
  | PyBool b => Some (of_Z (if b then 1 else 0))
  | _ => None
  end.

Definition is_None (v : pyval) : bool :=
  match v with PyNone => true | _ => false end.

(** [data.get(k)]: [None] both for a missing key and for a stored null. *)
Definition dict_get (data : dict) (k : string) : pyval :=
  default PyNone (data !! k).

(** ** Exceptions *)

Inductive exn :=
| HTTPException (status_code : Z) (detail : string)
| KeyError (key : string)
| TypeError
| AttributeError
| JSONDecodeError
| UnicodeDecodeError
| SerialException
| FileNotFoundError (msg : string)
| ValueError (msg : string)
| ForeignError (msg : string).

Inductive except (A : Type) :=
| Return (a : A)
| Raise (e : exn).
Arguments Return {A} a.
Arguments Raise {A} e.

(** ** The serial line

    The port is an external device: what matters to the program is what each
    successive call of [ser.readline()] meets, and what the library calls
    chained on it ([.decode("utf-8")], [.strip()], [json.loads]) make of
    the bytes. [feed] lists that per call; [pos] counts the calls made. *)

Inductive reading :=
| PortFault            (* readline() raises serial.SerialException *)
| TimedOut             (* nothing within the 1 s bound: readline() gives b'' *)
| BadUtf8              (* the bytes do not decode as UTF-8 *)
| BadJson              (* the text is not JSON *)
| Json (v : pyval).    (* the text parses to [v] *)

Record Serial := { feed : nat -> reading; pos : nat }.

(** [json.loads(ser.readline().decode("utf-8").strip())] on one reading.
    An empty line is not JSON. *)
Definition parse_line (r : reading) : except pyval :=
  match r with
  | PortFault => Raise SerialException
  | TimedOut => Raise JSONDecodeError
  | BadUtf8 => Raise UnicodeDecodeError
  | BadJson => Raise JSONDecodeError
  | Json v => Return v
  end.

(** ** The model artifact *)

Record Model := {
  feature_names_in_ : list string;
  predict : list pyval -> except number
}.

(** What [MODEL_PATH] holds at start-up. *)
Inductive artifact :=
| NoArtifact
| BadArtifact (e : exn)
| Artifact (m : Model).

(** ** Program state: the two globals, and a log of the external calls *)

Inductive call :=
| CallReadline
| CallPredict (row : list pyval).

Record State := {
  ser : option Serial;
  model : option Model;
  calls : list call
}.

Definition is_predict (c : call) : bool :=
  match c with CallPredict _ => true | CallReadline => false end.

Definition predict_calls (st : State) : nat :=
  length (filter (fun c => is_predict c = true) (calls st)).

Definition readline_calls (st : State) : nat :=
  length (filter (fun c => is_predict c = false) (calls st)).

(** ** State and exception monad *)

Definition M (A : Type) : Type := State -> except A * State.

Definition m_ret {A} (a : A) : M A := fun st => (Return a, st).

Definition m_raise {A} (e : exn) : M A := fun st => (Raise e, st).

Definition m_lift {A} (r : except A) : M A := fun st => (r, st).

Definition m_bind {A B} (m : M A) (k : A -> M B) : M B :=
  fun st =>
    match m st with
    | (Return a, st') => k a st'
    | (Raise e, st') => (Raise e, st')
    end.

(** [try: m  except Exception as e: h e] *)
Definition m_try {A} (m : M A) (h : exn -> M A) : M A :=
  fun st =>
    match m st with
    | (Return a, st') => (Return a, st')
    | (Raise e, st') => h e st'
    end.

Definition m_get : M State := fun st => (Return st, st).

Notation "'do' x <- m ; k" := (m_bind m (fun x => k))
  (at level 10, x name, m at level 100, k at level 200).

(** ** Configuration *)

Definition REQUIRED_FEATURES : list string := ["PM2.5"; "PM10"; "NH3"; "CO"].

(** The [ranges] table of [validate_sensor_data], in source order. *)
Definition ranges : list (string * (Z * Z)) :=
  [ ("PM2.5", (0, 1000));
    ("PM10", (0, 1000));
    ("CO", (0, 1000));
    ("NH3", (0, 500));
    ("temp", (-40, 85));
    ("hum", (0, 100)) ].

(** ** [validate_sensor_data] *)

(** [min_val <= value <= max_val] *)
Definition between (min_val max_val : Z) (value : pyval) : except bool :=
  match as_number value with
  | Some n => Return (num_le (of_Z min_val) n && num_le n (of_Z max_val))
  | None => Raise TypeError
  end.

(** One pass of the loop body: [Return true] when the loop goes on to the
    next field, [Return false] when it returns [False]. *)
Definition check_field (data : dict) (entry : string * (Z * Z)) : except bool :=
  let '(field, (min_val, max_val)) := entry in
  let value := dict_get data field in
  if is_None value && bool_decide (field ∈ REQUIRED_FEATURES) then Return false
  else if negb (is_None value) then
    match between min_val max_val value with
    | Return inside => Return inside
    | Raise e => Raise e
    end
  else Return true.

Fixpoint validate_fields (rs : list (string * (Z * Z))) (data : dict) : except bool :=
  match rs with
  | [] => Return true
  | entry :: rest =>
      match check_field data entry with
      | Return true => validate_fields rest data
      | Return false => Return false
      | Raise e => Raise e
      end
  end.

Definition validate_sensor_data (data : dict) : except bool :=
  validate_fields ranges data.

(** ** [read_arduino_data] *)

(** [if "PM25" in data: data["PM2.5"] = data.pop("PM25")] *)
Definition rename_pm25 (data : dict) : dict :=
  match data !! "PM25" with
  | Some v => <["PM2.5" := v]> (delete "PM25" data)
  | None => data
  end.

Definition is_str (s : string) (v : pyval) : bool :=
  match v with PyStr s' => bool_decide (s' = s) | _ => false end.

(** Lines 110-114 on the parsed value. [Return None] stands for falling out
    of the [try] block to the final [return None]. A value that is not a
    dict has no [get] or no string-keyed [pop], or is not iterable. *)
Definition accept (v : pyval) : except (option dict) :=
  match v with
  | PyDict data =>
      let data := rename_pm25 data in
      match validate_sensor_data data with
      | Return true => Return (Some data)
      | Return false => Return None
      | Raise e => Raise e
      end
  | PyList l => if existsb (is_str "PM25") l then Raise TypeError else Raise AttributeError
  | PyStr _ => Raise AttributeError
  | PyNone | PyBool _ | PyNum _ => Raise TypeError
  end.

(** One call of [ser.readline()] on the open port [s], with what the
    decoding chain makes of it. *)
Definition readline_json (s : Serial) : M pyval :=
  fun st =>
    (parse_line (feed s (pos s)),
     {| ser := Some {| feed := feed s; pos := S (pos s) |};
        model := model st;
        calls := CallReadline :: calls st |}).

Definition read_arduino_data : M (option dict) :=
  do st <- m_get;
  match ser st with
  | None => m_ret None
  | Some s =>
      m_try
        (do v <- readline_json s;
         m_lift (accept v))
        (fun e =>
           match e with
           | JSONDecodeError => m_ret None
           | KeyError _ => m_ret None
           | _ => m_ret None
           end)
  end.

(** ** [get_aqi_status] *)

Definition get_aqi_status (aqi : number) : string :=
  if num_le aqi (of_Z 50) then "Good"
  else if num_le aqi (of_Z 100) then "Moderate"
  else if num_le aqi (of_Z 150) then "Unhealthy for Sensitive Groups"
  else if num_le aqi (of_Z 200) then "Unhealthy"
  else if num_le aqi (of_Z 300) then "Very Unhealthy"
  else "Hazardous".

(** The six buckets in the order of their thresholds. *)
Definition buckets : list string :=
  [ "Good"; "Moderate"; "Unhealthy for Sensitive Groups";
    "Unhealthy"; "Very Unhealthy"; "Hazardous" ].

Fixpoint index_of (s : string) (l : list string) : nat :=
  match l with
  | [] => O
  | x :: rest => if bool_decide (x = s) then O else S (index_of s rest)
  end.

Definition bucket_rank (s : string) : nat := index_of s buckets.

(** ** Start-up: the first half of [lifespan] *)

Definition load_model (a : artifact) : except Model :=
  match a with
  | NoArtifact => Raise (FileNotFoundError "Model not found at saved_model/aqi_model.pkl")
  | BadArtifact e => Raise e
  | Artifact m =>
      if bool_decide (feature_names_in_ m = REQUIRED_FEATURES) then Return m
      else Raise (ValueError "Model features don't match required features")
  end.

(** [port] is [None] when opening the port or resetting its buffer raises. *)
Definition lifespan (a : artifact) (port : option Serial) : State :=
  {| ser := port;
     model := match load_model a with Return m => Some m | Raise _ => None end;
     calls := [] |}.

(** ** The handlers *)

Record Health := {
  serial_connected : bool;
  model_loaded : bool;
  required_features : list string
}.

Definition health_check (st : State) : Health :=
  {| serial_connected := bool_decide (is_Some (ser st));
     model_loaded := bool_decide (is_Some (model st));
     required_features := REQUIRED_FEATURES |}.

Record Response := {
  aqi : number;
  status : string;
  sensor_data : dict
}.

(** [{feature: sensor_data[feature] for feature in features}] *)
Fixpoint project (features : list string) (sensor_data : dict) : except dict :=
  match features with
  | [] => Return ∅
  | feature :: rest =>
      match sensor_data !! feature with
      | None => Raise (KeyError feature)
      | Some v =>
          match project rest sensor_data with
          | Return input_data => Return (<[feature := v]> input_data)
          | Raise e => Raise e
          end
      end
  end.

(** The one row of [pd.DataFrame([input_data], columns=REQUIRED_FEATURES)]. *)
Definition data_frame (input_data : dict) (columns : list string) : list pyval :=
  map (dict_get input_data) columns.

Definition call_predict (m : Model) (input_df : list pyval) : M number :=
  fun st =>
    (predict m input_df,
     {| ser := ser st; model := model st; calls := CallPredict input_df :: calls st |}).

(** [not sensor_data]: [None], or a dict of length 0. *)
Definition falsy (sensor_data : option dict) : bool :=
  match sensor_data with
  | None => true
  | Some d => Nat.eqb (size d) 0
  end.

Definition sensor_read_failed : exn :=
  HTTPException 500 "Failed to read sensor data".

Definition model_not_loaded : exn :=
  HTTPException 500 "ML model not loaded".

(** An exact-arithmetic stand-in for [round(x, 2)], ties to even. The code
    rounds a float, which can differ from it in the last digit; it only
    instantiates [py_round] in the examples, at values where both agree. *)
Definition round_half_even (q : Q) : Z :=
  let fl := Qfloor q in
  match Qcompare (q - inject_Z fl) (1 # 2) with
  | Lt => fl
  | Gt => fl + 1
  | Eq => if Z.even fl then fl else fl + 1
  end.

Definition round2 (x : number) : number :=
  match x with
  | Fin q => Fin (Qred (round_half_even (q * 100) # 100))
  | other => other
  end.

(** [str(e)] as Starlette and CPython print these exceptions. *)
Definition exn_str (e : exn) : string :=
  match e with
  | HTTPException code detail => pretty code +:+ ": " +:+ detail
  | KeyError k => "'" +:+ k +:+ "'"
  | FileNotFoundError msg | ValueError msg | ForeignError msg => msg
  | _ => ""
  end.

Inductive request := GetHealth | GetAqi.

Section Handlers.

(** Two built-ins stay abstract: [round(_, 2)] on a float, and [str] on
    an exception object. *)
Variable py_round : number -> number.
Variable py_str : exn -> string.

(** The body of the [try] block of [get_aqi_prediction]. *)
Definition predict_block (sensor_data : dict) : M Response :=
  do input_data <- m_lift (project REQUIRED_FEATURES sensor_data);
  let input_df := data_frame input_data REQUIRED_FEATURES in
  do st <- m_get;
  match model st with
  | None => m_raise model_not_loaded
  | Some m =>
      do prediction <- call_predict m input_df;
      let aqi_status := get_aqi_status prediction in
      m_ret {| aqi := py_round prediction;
               status := aqi_status;
               sensor_data :=
                 <["hum" := dict_get sensor_data "hum"]>
                   (<["temp" := dict_get sensor_data "temp"]> input_data) |}
  end.

Definition get_aqi_prediction : M Response :=
  do sensor_data <- read_arduino_data;
  if falsy sensor_data then m_raise sensor_read_failed
  else
    match sensor_data with
    | Some d =>
        m_try (predict_block d)
          (fun e => m_raise (HTTPException 500 ("Prediction error: " +:+ py_str e)))
    | None => m_raise sensor_read_failed
    end.

(** The state a request leaves behind. *)
Definition serve (r : request) (st : State) : State :=
  match r with
  | GetHealth => st
  | GetAqi => snd (get_aqi_prediction st)
  end.

Definition serve_all (rs : list request) (st : State) : State :=
  fold_left (fun s r => serve r s) rs st.

End Handlers.


(** ** Vocabulary of the statements *)

(** Every check of the table other than the one on [field] lets the loop
    of [validate_sensor_data] go on. *)
Definition otherwise_valid (field : string) (data : dict) : Prop :=
  ∀ entry, entry ∈ ranges → entry.1 ≠ field → check_field data entry = Return true.

(** No field of the table holds a value that does not order against a
    number: each one is absent, null or a number. *)
Definition orderable_record (data : dict) : Prop :=
  ∀ entry, entry ∈ ranges →
    dict_get data entry.1 = PyNone ∨ is_Some (as_number (dict_get data entry.1)).

(** What one reading makes [read_arduino_data] return. *)
Definition read_result (r : reading) : option dict :=
  match parse_line r with
  | Return v => match accept v with Return o => o | Raise _ => None end
  | Raise _ => None
  end.

(** The port after one more [readline()]. *)
Definition after_readline (s : Serial) (st : State) : State :=
  {| ser := Some {| feed := feed s; pos := S (pos s) |};
     model := model st;
     calls := CallReadline :: calls st |}.

(** Result and final state of [read_arduino_data], read off the port. *)
Definition read_outcome (st : State) : option dict :=
  match ser st with
  | None => None
  | Some s => read_result (feed s (pos s))
  end.

Definition read_state (st : State) : State :=
  match ser st with
  | None => st
  | Some s => after_readline s st
  end.

(** The stages at which a read can fail. *)
Inductive read_failure (st : State) : Prop :=
| ConnectionUnavailable :
    ser st = None → read_failure st
| PortError s :
    ser st = Some s → feed s (pos s) = PortFault → read_failure st
| ReadTimeout s :
    ser st = Some s → feed s (pos s) = TimedOut → read_failure st
| DecodeError s :
    ser st = Some s → feed s (pos s) = BadUtf8 → read_failure st
| MalformedText s :
    ser st = Some s → feed s (pos s) = BadJson → read_failure st
| MalformedShape s v :
    ser st = Some s → feed s (pos s) = Json v →
    (∀ d, v ≠ PyDict d) → read_failure st
| ValidationFailed s d :
    ser st = Some s → feed s (pos s) = Json (PyDict d) →
    validate_sensor_data (rename_pm25 d) ≠ Return true → read_failure st.

(** ** Sample data *)

Definition num (z : Z) : pyval := PyNum (of_Z z).

(** [{"PM25": 40, "PM10": 60, "NH3": 10, "CO": 2}] *)
Definition firmware_sample : dict :=
  <["PM25" := num 40]> (<["PM10" := num 60]> (<["NH3" := num 10]> (<["CO" := num 2]> ∅))).

(** [{"PM2.5": 40, "PM10": 60, "NH3": 10, "CO": 2}] *)
Definition canonical_sample : dict :=
  <["PM2.5" := num 40]> (<["PM10" := num 60]> (<["NH3" := num 10]> (<["CO" := num 2]> ∅))).

(** [{"PM25": 40, "PM2.5": 7, "PM10": 60, "NH3": 10, "CO": 2}] *)
Definition both_keys_sample : dict := <["PM2.5" := num 7]> firmware_sample.

(** [{"PM2.5": 40, "PM10": 60, "CO": "x"}]: no NH3, and a string where the
    table expects a number. *)
Definition string_co_sample : dict :=
  <["PM2.5" := num 40]> (<["PM10" := num 60]> (<["CO" := PyStr "x"]> ∅)).

(** A model trained on the configured features that always answers 42.0. *)
Definition stub_model : Model :=
  {| feature_names_in_ := REQUIRED_FEATURES;
     predict := fun _ => Return (of_Z 42) |}.

(** A model trained on the same features in another order. *)
Definition shuffled_model : Model :=
  {| feature_names_in_ := ["PM10"; "PM2.5"; "NH3"; "CO"];
     predict := fun _ => Return (of_Z 42) |}.

(** A port whose first line is the firmware sample and which is silent
    afterwards. *)
Definition sample_port : Serial :=
  {| feed := fun n => match n with O => Json (PyDict firmware_sample) | S _ => TimedOut end;
     pos := O |}.

(** The service started with the stub model on the sample port, and the
    answer to its first prediction query. *)
Definition sample_state : State := lifespan (Artifact stub_model) (Some sample_port).

Definition sample_response : Response :=
  {| aqi := of_Z 42;
     status := "Good";
     sensor_data := <["hum" := PyNone]> (<["temp" := PyNone]> canonical_sample) |}.

(** ** Vocabulary of the further properties *)

(** [value] is a number within the bounds [lo] and [hi]. *)
Definition in_table_range (lo hi : Z) (value : pyval) : bool :=
  match as_number value with
  | Some n => num_le (of_Z lo) n && num_le n (of_Z hi)
  | None => false
  end.

(** What the loop of [validate_sensor_data] asks of one field: absent or
    null when the field is not required, or else a number within bounds. *)
Definition field_accepted (data : dict) (entry : string * (Z * Z)) : Prop :=
  (dict_get data entry.1 = PyNone ∧ entry.1 ∉ REQUIRED_FEATURES) ∨
  in_table_range entry.2.1 entry.2.2 (dict_get data entry.1) = true.

(** A row fit for the model: one number per required feature, in order,
    each within the bounds the table gives that feature. *)
Definition row_in_range (row : list pyval) : Prop :=
  Forall2
    (fun feature value =>
       ∃ lo hi, (feature, (lo, hi)) ∈ ranges ∧ in_table_range lo hi value = true)
    REQUIRED_FEATURES row.

(** The prediction requests among [rs]. *)
Fixpoint aqi_requests (rs : list request) : nat :=
  match rs with
  | [] => O
  | GetAqi :: rest => S (aqi_requests rest)
  | GetHealth :: rest => aqi_requests rest
  end.

(** The port [n] calls of [readline()] later. *)
Definition advance (n : nat) (s : Serial) : Serial :=
  {| feed := feed s; pos := (pos s + n)%nat |}.

(** [n] when a port is open, nothing otherwise. *)
Definition when_open (port : option Serial) (n : nat) : nat :=
  match port with Some _ => n | None => O end.

(** The second half of [lifespan], [if ser: ser.close()]: the port that is
    closed at shutdown, if any. *)
Definition lifespan_cleanup (st : State) : option Serial := ser st.

(** A model trained on the configured features whose [predict] raises. *)
Definition failing_model : Model :=
  {| feature_names_in_ := REQUIRED_FEATURES;
     predict := fun _ => Raise (ForeignError "X has 4 features, but 8 were expected") |}.

(** * Properties *)

(** ** Comparison of numbers *)

Lemma num_le_Fin (x y : Q) : num_le (Fin x) (Fin y) = true ↔ (x <= y)%Q.
Proof. apply Qle_bool_iff. Qed.

Lemma num_le_Fin_false (x y : Q) : num_le (Fin x) (Fin y) = false ↔ (y < x)%Q.
Proof.
  simpl. split.
  - intros H. apply Qnot_le_lt. intros Hle. apply Qle_bool_iff in Hle. congruence.
  - intros H. destruct (Qle_bool x y) eqn:E; [|reflexivity].
    apply Qle_bool_iff in E. exfalso. apply (Qlt_not_le _ _ H E).
Qed.

(** ** The classifier *)

Ltac split_thresholds q :=
  unfold get_aqi_status, of_Z, inject_Z;
  destruct (num_le (Fin q) (Fin (50 # 1))) eqn:?;
  [| destruct (num_le (Fin q) (Fin (100 # 1))) eqn:?;
   [| destruct (num_le (Fin q) (Fin (150 # 1))) eqn:?;
    [| destruct (num_le (Fin q) (Fin (200 # 1))) eqn:?;
     [| destruct (num_le (Fin q) (Fin (300 # 1))) eqn:? ]]]];
  repeat match goal with
         | H : num_le (Fin _) (Fin _) = true |- _ => apply num_le_Fin in H
         | H : num_le (Fin _) (Fin _) = false |- _ => apply num_le_Fin_false in H
         end.

(** C2: on a real AQI value the classifier answers "Good" exactly up to 50,
    "Moderate" exactly above 50 up to 100, "Unhealthy for Sensitive Groups"
    exactly above 100 up to 150, "Unhealthy" exactly above 150 up to 200,
    "Very Unhealthy" exactly above 200 up to 300 and "Hazardous" exactly
    above 300; being a function, it answers once for every value. *)
Theorem get_aqi_status_thresholds (q : Q) :
  (get_aqi_status (Fin q) = "Good" ↔ (q <= 50)%Q) ∧
  (get_aqi_status (Fin q) = "Moderate" ↔ (50 < q ∧ q <= 100)%Q) ∧
  (get_aqi_status (Fin q) = "Unhealthy for Sensitive Groups" ↔ (100 < q ∧ q <= 150)%Q) ∧
  (get_aqi_status (Fin q) = "Unhealthy" ↔ (150 < q ∧ q <= 200)%Q) ∧
  (get_aqi_status (Fin q) = "Very Unhealthy" ↔ (200 < q ∧ q <= 300)%Q) ∧
  (get_aqi_status (Fin q) = "Hazardous" ↔ (300 < q)%Q).
Proof.
  split_thresholds q;
    repeat split; intros; try discriminate; try reflexivity;
    repeat match goal with H : _ ∧ _ |- _ => destruct H end;
    first [lra | exfalso; lra].
Qed.

(** The boundary points of the table, and the three values that are not
    real numbers. *)
Example get_aqi_status_points :
  get_aqi_status (of_Z 50) = "Good" ∧
  get_aqi_status (Fin (5001 # 100)) = "Moderate" ∧
  get_aqi_status (of_Z 100) = "Moderate" ∧
  get_aqi_status (of_Z 150) = "Unhealthy for Sensitive Groups" ∧
  get_aqi_status (of_Z 200) = "Unhealthy" ∧
  get_aqi_status (of_Z 300) = "Very Unhealthy" ∧
  get_aqi_status (Fin (30001 # 100)) = "Hazardous" ∧
  get_aqi_status NegInf = "Good" ∧
  get_aqi_status PosInf = "Hazardous" ∧
  get_aqi_status NaN = "Hazardous".
Proof. repeat split. Qed.

Example bucket_rank_order :
  map bucket_rank buckets = [0; 1; 2; 3; 4; 5]%nat.
Proof. reflexivity. Qed.

(** C10: the classifier is monotone: a larger real AQI never falls into an
    earlier bucket of Good, Moderate, Unhealthy for Sensitive Groups,
    Unhealthy, Very Unhealthy, Hazardous. *)
Theorem get_aqi_status_monotone (a b : Q) :
  (a <= b)%Q →
  (bucket_rank (get_aqi_status (Fin a)) ≤ bucket_rank (get_aqi_status (Fin b)))%nat.
Proof.
  intros Hab.
  split_thresholds a; split_thresholds b;
    try (exfalso; lra); vm_compute; lia.
Qed.

Lemma get_aqi_status_monotone_witness :
  (50 <= 5001 # 100)%Q ∧
  (bucket_rank (get_aqi_status (Fin 50)) ≤ bucket_rank (get_aqi_status (Fin (5001 # 100))))%nat.
Proof.
  split.
  - discriminate.
  - apply (get_aqi_status_monotone 50 (5001 # 100)). discriminate.
Defined.

(** ** The validator *)

Lemma Qle_bool_inject_Z (a b : Z) : Qle_bool (inject_Z a) (inject_Z b) = (a <=? b)%Z.
Proof. unfold Qle_bool. simpl. by rewrite !Z.mul_1_r. Qed.

Lemma dict_get_insert_eq (data : dict) k v : dict_get (<[k := v]> data) k = v.
Proof. unfold dict_get. by rewrite lookup_insert_eq. Qed.

Lemma dict_get_insert_ne (data : dict) k k' v :
  k ≠ k' → dict_get (<[k := v]> data) k' = dict_get data k'.
Proof. intros. unfold dict_get. by rewrite lookup_insert_ne. Qed.

Lemma dict_get_delete_ne (data : dict) k k' :
  k ≠ k' → dict_get (delete k data) k' = dict_get data k'.
Proof. intros. unfold dict_get. by rewrite lookup_delete_ne. Qed.

Lemma check_field_insert_ne (data : dict) field v entry :
  entry.1 ≠ field → check_field (<[field := v]> data) entry = check_field data entry.
Proof.
  destruct entry as [f [lo hi]]. simpl. intros Hne.
  unfold check_field. by rewrite dict_get_insert_ne.
Qed.

Lemma check_field_delete_ne (data : dict) field entry :
  entry.1 ≠ field → check_field (delete field data) entry = check_field data entry.
Proof.
  destruct entry as [f [lo hi]]. simpl. intros Hne.
  unfold check_field. by rewrite dict_get_delete_ne.
Qed.

(** On an integer value the check is the two comparisons of the source. *)
Lemma check_field_insert_Z (data : dict) field lo hi z :
  check_field (<[field := PyNum (of_Z z)]> data) (field, (lo, hi))
  = Return ((lo <=? z)%Z && (z <=? hi)%Z).
Proof.
  unfold check_field. rewrite dict_get_insert_eq. simpl.
  unfold between. simpl. by rewrite !Qle_bool_inject_Z.
Qed.

Lemma check_field_absent (data : dict) field lo hi :
  data !! field = None →
  check_field data (field, (lo, hi))
  = Return (negb (bool_decide (field ∈ REQUIRED_FEATURES))).
Proof.
  intros Hnone. unfold check_field, dict_get. rewrite Hnone. simpl.
  by destruct (bool_decide (field ∈ REQUIRED_FEATURES)).
Qed.

Lemma validate_fields_true rs (data : dict) :
  validate_fields rs data = Return true
  ↔ ∀ entry, entry ∈ rs → check_field data entry = Return true.
Proof.
  induction rs as [|e rs IH]; simpl.
  - split; [intros _ entry Hin; by apply elem_of_nil in Hin | done].
  - destruct (check_field data e) as [[|]|err] eqn:He.
    + rewrite IH. split.
      * intros Hall entry [->|Hin]%elem_of_cons; auto.
      * intros Hall entry Hin. apply Hall. by apply elem_of_cons; right.
    + split; [done|]. intros Hall.
      specialize (Hall e (list_elem_of_here _ _)). congruence.
    + split; [done|]. intros Hall.
      specialize (Hall e (list_elem_of_here _ _)). congruence.
Qed.

(** A failing check on [field], with every other check passing, makes the
    loop return [False]. *)
Lemma validate_fields_false rs field (data : dict) :
  (∀ e, e ∈ rs → e.1 ≠ field → check_field data e = Return true) →
  (∀ e, e ∈ rs → e.1 = field → check_field data e = Return false) →
  (∃ e, e ∈ rs ∧ e.1 = field) →
  validate_fields rs data = Return false.
Proof.
  induction rs as [|e rs IH]; intros Hother Hfield [e0 [Hin He0]].
  - by apply elem_of_nil in Hin.
  - simpl. destruct (decide (e.1 = field)) as [Heq|Hne].
    + by rewrite (Hfield e (list_elem_of_here _ _) Heq).
    + rewrite (Hother e (list_elem_of_here _ _) Hne).
      apply IH.
      * intros e' Hin'. apply Hother. by apply elem_of_cons; right.
      * intros e' Hin'. apply Hfield. by apply elem_of_cons; right.
      * apply elem_of_cons in Hin as [->|Hin]; [done|]. eauto.
Qed.

Ltac in_ranges H :=
  unfold ranges in H; rewrite !elem_of_cons, elem_of_nil in H;
  destruct_or!; try done; simplify_eq.

Lemma ranges_functional field r r' :
  (field, r) ∈ ranges → (field, r') ∈ ranges → r = r'.
Proof. intros H H'. in_ranges H; in_ranges H'; reflexivity. Qed.

Lemma ranges_ordered field lo hi : (field, (lo, hi)) ∈ ranges → (lo <= hi)%Z.
Proof. intros H. in_ranges H; lia. Qed.

Lemma required_in_ranges field :
  field ∈ REQUIRED_FEATURES → ∃ r, (field, r) ∈ ranges.
Proof.
  unfold REQUIRED_FEATURES. rewrite !elem_of_cons, elem_of_nil.
  intros H. destruct_or!; try done; subst; eexists; unfold ranges;
    rewrite !elem_of_cons; eauto 10.
Qed.

Lemma validate_insert_Z field lo hi z (data : dict) :
  (field, (lo, hi)) ∈ ranges → otherwise_valid field data →
  validate_sensor_data (<[field := PyNum (of_Z z)]> data)
  = Return ((lo <=? z)%Z && (z <=? hi)%Z).
Proof.
  intros Hin Hother.
  assert (Hhere : ∀ e, e ∈ ranges → e.1 = field → e = (field, (lo, hi))).
  { intros [f r] He Hf. simpl in Hf. subst f.
    destruct r as [lo' hi']. by rewrite (ranges_functional _ _ _ He Hin). }
  unfold validate_sensor_data.
  destruct ((lo <=? z)%Z && (z <=? hi)%Z) eqn:Hb.
  - apply validate_fields_true. intros e He.
    destruct (decide (e.1 = field)) as [Heq|Hne].
    + rewrite (Hhere e He Heq), check_field_insert_Z. by rewrite Hb.
    + rewrite check_field_insert_ne by done. by apply Hother.
  - apply (validate_fields_false _ field).
    + intros e He Hne. rewrite check_field_insert_ne by done. by apply Hother.
    + intros e He Heq. rewrite (Hhere e He Heq), check_field_insert_Z. by rewrite Hb.
    + by exists (field, (lo, hi)).
Qed.

(** C3: for every field of the range table, a record whose other checks
    pass is valid when the field holds exactly its declared minimum or
    maximum, and invalid when it holds one unit less than the minimum or one
    unit more than the maximum. *)
Theorem validate_sensor_data_boundaries field lo hi (data : dict) :
  (field, (lo, hi)) ∈ ranges →
  otherwise_valid field data →
  validate_sensor_data (<[field := PyNum (of_Z lo)]> data) = Return true ∧
  validate_sensor_data (<[field := PyNum (of_Z hi)]> data) = Return true ∧
  validate_sensor_data (<[field := PyNum (of_Z (lo - 1))]> data) = Return false ∧
  validate_sensor_data (<[field := PyNum (of_Z (hi + 1))]> data) = Return false.
Proof.
  intros Hin Hother. pose proof (ranges_ordered _ _ _ Hin) as Hle.
  rewrite !(validate_insert_Z field lo hi) by done.
  repeat split; f_equal.
  - apply andb_true_iff. split; apply Z.leb_le; lia.
  - apply andb_true_iff. split; apply Z.leb_le; lia.
  - apply andb_false_iff. left. apply Z.leb_gt. lia.
  - apply andb_false_iff. right. apply Z.leb_gt. lia.
Qed.

Lemma canonical_sample_otherwise_valid field : otherwise_valid field canonical_sample.
Proof. intros e He _. in_ranges He; reflexivity. Qed.

Lemma validate_sensor_data_boundaries_witness :
  validate_sensor_data (<["NH3" := PyNum (of_Z 0)]> canonical_sample) = Return true ∧
  validate_sensor_data (<["NH3" := PyNum (of_Z 500)]> canonical_sample) = Return true ∧
  validate_sensor_data (<["NH3" := PyNum (of_Z (0 - 1))]> canonical_sample) = Return false ∧
  validate_sensor_data (<["NH3" := PyNum (of_Z (500 + 1))]> canonical_sample) = Return false.
Proof.
  apply (validate_sensor_data_boundaries "NH3" 0 500 canonical_sample).
  - unfold ranges. rewrite !elem_of_cons. eauto 10.
  - apply canonical_sample_otherwise_valid.
Defined.

Lemma check_field_missing_required (data : dict) field r :
  field ∈ REQUIRED_FEATURES → data !! field = None →
  check_field data (field, r) = Return false.
Proof.
  intros Hreq Hnone. destruct r as [lo hi].
  rewrite check_field_absent by done. by rewrite bool_decide_eq_true_2.
Qed.

(** When every field of the table is absent, null or a number, no
    comparison raises. *)
Lemma check_field_orderable (data : dict) entry :
  dict_get data entry.1 = PyNone ∨ is_Some (as_number (dict_get data entry.1)) →
  ∃ b, check_field data entry = Return b.
Proof.
  destruct entry as [f [lo hi]]. simpl. unfold check_field, between.
  intros [->|[n Hn]]; simpl.
  - destruct (bool_decide (f ∈ REQUIRED_FEATURES)); eauto.
  - rewrite Hn. destruct (dict_get data f); simplify_eq/=; eauto.
Qed.

Lemma validate_fields_orderable rs (data : dict) :
  (∀ entry, entry ∈ rs →
     dict_get data entry.1 = PyNone ∨ is_Some (as_number (dict_get data entry.1))) →
  ∃ b, validate_fields rs data = Return b.
Proof.
  induction rs as [|e rs IH]; intros Hord; simpl; [eauto|].
  destruct (check_field_orderable data e) as [[|] ->]; [|apply IH|eauto].
  - apply Hord, list_elem_of_here.
  - intros e' He'. apply Hord. by apply elem_of_cons; right.
Qed.

(** The only exception the validator can raise is the [TypeError] of a
    comparison. *)
Lemma check_field_raises (data : dict) entry e :
  check_field data entry = Raise e → e = TypeError.
Proof.
  destruct entry as [f [lo hi]]. unfold check_field, between.
  destruct (is_None (dict_get data f) && bool_decide (f ∈ REQUIRED_FEATURES)); [done|].
  destruct (negb (is_None (dict_get data f))); [|done].
  destruct (as_number (dict_get data f)); [done|]. by intros [= <-].
Qed.

Lemma validate_fields_raises rs (data : dict) e :
  validate_fields rs data = Raise e → e = TypeError.
Proof.
  induction rs as [|entry rs IH]; simpl; [done|].
  destruct (check_field data entry) as [[|]|e'] eqn:He; [done|done|].
  intros [= <-]. by apply (check_field_raises data entry).
Qed.

(** C4, amended: a record that lacks one of the required features PM2.5,
    PM10, NH3, CO is never judged valid. The validator returns [False]
    whenever every field of the table is absent, null or a number, whatever
    those values are; when some field of the table holds a value of another
    kind, it returns [False] or the range comparison raises [TypeError]. A
    field that is not required, such as temp or hum, can be absent from a
    valid record: when the other checks pass the record is valid without
    it, and removing it from a valid record leaves the record valid. *)
Theorem validate_sensor_data_missing_fields :
  (∀ (data : dict) field,
     field ∈ REQUIRED_FEATURES → data !! field = None →
     validate_sensor_data data ≠ Return true ∧
     (validate_sensor_data data = Return false ∨
      validate_sensor_data data = Raise TypeError) ∧
     (orderable_record data → validate_sensor_data data = Return false)) ∧
  (∀ (data : dict) field,
     field ∉ REQUIRED_FEATURES → data !! field = None →
     otherwise_valid field data →
     validate_sensor_data data = Return true) ∧
  (∀ (data : dict) field,
     field ∉ REQUIRED_FEATURES →
     validate_sensor_data data = Return true →
     validate_sensor_data (delete field data) = Return true).
Proof.
  split; [|split].
  - intros data field Hreq Hnone.
    destruct (required_in_ranges field Hreq) as [r Hr].
    assert (Hnot : validate_sensor_data data ≠ Return true).
    { intros Hok. unfold validate_sensor_data in Hok.
      rewrite validate_fields_true in Hok. specialize (Hok _ Hr).
      rewrite check_field_missing_required in Hok by done. discriminate. }
    split; [done|]. split.
    + destruct (validate_sensor_data data) as [[|]|e] eqn:Hv; [done|by left|].
      right. by rewrite (validate_fields_raises _ _ _ Hv).
    + intros Hord.
      destruct (validate_fields_orderable ranges data Hord) as [[|] Hb]; [done|].
      exact Hb.
  - intros data field Hopt Hnone Hother.
    apply validate_fields_true. intros [f [lo hi]] He.
    destruct (decide (f = field)) as [->|Hne]; [|by apply Hother].
    rewrite check_field_absent by done. by rewrite bool_decide_eq_false_2.
  - intros data field Hopt Hok.
    unfold validate_sensor_data in *. rewrite validate_fields_true in Hok.
    apply validate_fields_true. intros [f [lo hi]] He.
    destruct (decide (f = field)) as [->|Hne].
    + rewrite check_field_absent by apply lookup_delete_eq.
      by rewrite bool_decide_eq_false_2.
    + rewrite check_field_delete_ne by done. by apply Hok.
Qed.

Lemma orderable_record_sample : orderable_record (delete "CO" canonical_sample).
Proof.
  intros e He. in_ranges He; simpl;
    first [ by left | right; eexists; reflexivity ].
Qed.

Lemma validate_sensor_data_missing_fields_witness :
  (validate_sensor_data (delete "CO" canonical_sample) ≠ Return true ∧
   (validate_sensor_data (delete "CO" canonical_sample) = Return false ∨
    validate_sensor_data (delete "CO" canonical_sample) = Raise TypeError) ∧
   validate_sensor_data (delete "CO" canonical_sample) = Return false) ∧
  validate_sensor_data canonical_sample = Return true ∧
  validate_sensor_data (delete "hum" (<["hum" := num 55]> canonical_sample)) = Return true.
Proof.
  destruct validate_sensor_data_missing_fields as [Hreq [Hopt Hdel]].
  split; [|split].
  - destruct (Hreq (delete "CO" canonical_sample) "CO") as [Hnot [Hor Hfalse]].
    + unfold REQUIRED_FEATURES. rewrite !elem_of_cons. eauto 10.
    + apply lookup_delete_eq.
    + split; [exact Hnot|]. split; [exact Hor | exact (Hfalse orderable_record_sample)].
  - apply (Hopt canonical_sample "temp").
    + apply (bool_decide_unpack _). by vm_compute.
    + reflexivity.
    + apply canonical_sample_otherwise_valid.
  - apply (Hdel (<["hum" := num 55]> canonical_sample) "hum").
    + apply (bool_decide_unpack _). by vm_compute.
    + reflexivity.
Defined.

(** C4 as stated fails: the record PM2.5 = 40, PM10 = 60, CO = "x" lacks
    the required NH3, and the validator does not return [False] on it: the
    comparison on CO, which the table lists before NH3, raises. *)
Lemma missing_required_with_string_raises :
  "NH3" ∈ REQUIRED_FEATURES ∧
  string_co_sample !! "NH3" = None ∧
  validate_sensor_data string_co_sample = Raise TypeError ∧
  validate_sensor_data string_co_sample ≠ Return false.
Proof.
  split; [unfold REQUIRED_FEATURES; rewrite !elem_of_cons; eauto 10|].
  repeat split; discriminate.
Qed.

(** ** The key rename *)

Lemma rename_pm25_present (data : dict) v :
  data !! "PM25" = Some v →
  rename_pm25 data = <["PM2.5" := v]> (delete "PM25" data).
Proof. intros H. unfold rename_pm25. by rewrite H. Qed.

Lemma rename_pm25_absent (data : dict) :
  data !! "PM25" = None → rename_pm25 data = data.
Proof. intros H. unfold rename_pm25. by rewrite H. Qed.

Lemma rename_pm25_other (data : dict) k :
  k ≠ "PM25" → k ≠ "PM2.5" → rename_pm25 data !! k = data !! k.
Proof.
  intros H1 H2. unfold rename_pm25. destruct (data !! "PM25"); [|done].
  by rewrite lookup_insert_ne, lookup_delete_ne.
Qed.

(** C5: when the decoded object has the firmware key "PM25", the record
    that is validated and passed on holds that value under "PM2.5", has no
    "PM25" key and agrees with the decoded object on every other key; the
    object PM25 = 40, PM10 = 60, NH3 = 10, CO = 2 becomes the record
    PM2.5 = 40, PM10 = 60, NH3 = 10, CO = 2. *)
Theorem rename_pm25_alias :
  (∀ (data : dict) v,
     data !! "PM25" = Some v →
     rename_pm25 data !! "PM2.5" = Some v ∧
     rename_pm25 data !! "PM25" = None ∧
     (∀ k, k ≠ "PM25" → k ≠ "PM2.5" → rename_pm25 data !! k = data !! k) ∧
     accept (PyDict data) =
       match validate_sensor_data (rename_pm25 data) with
       | Return true => Return (Some (rename_pm25 data))
       | Return false => Return None
       | Raise e => Raise e
       end) ∧
  rename_pm25 firmware_sample = canonical_sample ∧
  canonical_sample !! "PM2.5" = Some (num 40) ∧
  canonical_sample !! "PM25" = None ∧
  accept (PyDict firmware_sample) = Return (Some canonical_sample).
Proof.
  split; [|by vm_compute].
  intros data v Hv. repeat split.
  - rewrite (rename_pm25_present data v Hv). by rewrite lookup_insert_eq.
  - rewrite (rename_pm25_present data v Hv).
    by rewrite lookup_insert_ne, lookup_delete_eq.
  - apply rename_pm25_other.
Qed.

Lemma rename_pm25_alias_witness :
  rename_pm25 firmware_sample !! "PM2.5" = Some (num 40) ∧
  rename_pm25 firmware_sample !! "PM25" = None ∧
  (∀ k, k ≠ "PM25" → k ≠ "PM2.5" →
        rename_pm25 firmware_sample !! k = firmware_sample !! k) ∧
  accept (PyDict firmware_sample) =
    match validate_sensor_data (rename_pm25 firmware_sample) with
    | Return true => Return (Some (rename_pm25 firmware_sample))
    | Return false => Return None
    | Raise e => Raise e
    end.
Proof.
  apply (proj1 rename_pm25_alias firmware_sample (num 40)). reflexivity.
Defined.

(** C9: when the decoded object has both "PM25" and "PM2.5", the record
    keeps one "PM2.5" entry, holding the value that was under "PM25"; the
    "PM25" key is gone, the record has one key fewer, the value that was
    under "PM2.5" has no influence on the result, and no other key changes. *)
Theorem rename_pm25_overwrites (data : dict) v w :
  data !! "PM25" = Some v →
  data !! "PM2.5" = Some w →
  rename_pm25 data !! "PM2.5" = Some v ∧
  rename_pm25 data !! "PM25" = None ∧
  size (rename_pm25 data) = pred (size data) ∧
  (∀ w', rename_pm25 (<["PM2.5" := w']> data) = rename_pm25 data) ∧
  rename_pm25 (delete "PM2.5" data) = rename_pm25 data ∧
  (∀ k, k ≠ "PM25" → k ≠ "PM2.5" → rename_pm25 data !! k = data !! k).
Proof.
  intros Hv Hw. rewrite (rename_pm25_present data v Hv).
  split; [by rewrite lookup_insert_eq|].
  split; [by rewrite lookup_insert_ne, lookup_delete_eq|].
  split.
  { rewrite map_size_insert_Some, map_size_delete_Some; [done|eauto|].
    rewrite lookup_delete_ne by done. eauto. }
  split.
  { intros w'. rewrite (rename_pm25_present _ v) by (by rewrite lookup_insert_ne).
    apply map_eq. intros k.
    destruct (decide (k = "PM2.5")) as [->|Hk]; [by rewrite !lookup_insert_eq|].
    rewrite !lookup_insert_ne by done.
    destruct (decide (k = "PM25")) as [->|Hk']; [by rewrite !lookup_delete_eq|].
    by rewrite !lookup_delete_ne, lookup_insert_ne by done. }
  split.
  { rewrite (rename_pm25_present _ v) by (by rewrite lookup_delete_ne).
    apply map_eq. intros k.
    destruct (decide (k = "PM2.5")) as [->|Hk]; [by rewrite !lookup_insert_eq|].
    rewrite !lookup_insert_ne by done.
    destruct (decide (k = "PM25")) as [->|Hk']; [by rewrite !lookup_delete_eq|].
    by rewrite !lookup_delete_ne by done. }
  intros k H1 H2. by rewrite lookup_insert_ne, lookup_delete_ne.
Qed.

Lemma rename_pm25_overwrites_witness :
  rename_pm25 both_keys_sample !! "PM2.5" = Some (num 40) ∧
  rename_pm25 both_keys_sample !! "PM25" = None ∧
  size (rename_pm25 both_keys_sample) = pred (size both_keys_sample) ∧
  (∀ w', rename_pm25 (<["PM2.5" := w']> both_keys_sample) = rename_pm25 both_keys_sample) ∧
  rename_pm25 (delete "PM2.5" both_keys_sample) = rename_pm25 both_keys_sample ∧
  (∀ k, k ≠ "PM25" → k ≠ "PM2.5" →
        rename_pm25 both_keys_sample !! k = both_keys_sample !! k).
Proof.
  apply (rename_pm25_overwrites both_keys_sample (num 40) (num 7)); reflexivity.
Defined.

(** ** The serial reader *)

Lemma read_arduino_data_eq st :
  read_arduino_data st = (Return (read_outcome st), read_state st).
Proof.
  unfold read_arduino_data, read_outcome, read_state, m_bind, m_get.
  destruct (ser st) as [s|]; [|reflexivity].
  unfold m_try, m_bind, readline_json, m_lift, m_ret, read_result, after_readline.
  destruct (parse_line (feed s (pos s))) as [v|e].
  - destruct (accept v) as [o|e]; [reflexivity|]. by destruct e.
  - by destruct e.
Qed.

Lemma predict_calls_after_readline s st :
  predict_calls (after_readline s st) = predict_calls st.
Proof. reflexivity. Qed.

Lemma readline_calls_after_readline s st :
  readline_calls (after_readline s st) = S (readline_calls st).
Proof. reflexivity. Qed.

Lemma read_state_model st : model (read_state st) = model st.
Proof. unfold read_state. by destruct (ser st). Qed.

Lemma read_state_predict_calls st : predict_calls (read_state st) = predict_calls st.
Proof.
  unfold read_state. destruct (ser st); [|done]. apply predict_calls_after_readline.
Qed.

(** Only a validated record comes back from the reader. *)
Lemma read_result_valid r d :
  read_result r = Some d → validate_sensor_data d = Return true.
Proof.
  unfold read_result. destruct (parse_line r) as [v|]; [|done].
  destruct v as [| | | |l|d0]; unfold accept; try done.
  - by destruct (existsb (is_str "PM25") l).
  - destruct (validate_sensor_data (rename_pm25 d0)) as [[|]|] eqn:Hv; try done.
    by intros [= <-].
Qed.

Lemma read_outcome_valid st d :
  read_outcome st = Some d → validate_sensor_data d = Return true.
Proof.
  unfold read_outcome. destruct (ser st); [apply read_result_valid | done].
Qed.

(** C8: with an open connection one call of the reader makes exactly one
    [readline()]: the port moves on by one line, one read is logged, and
    the result is decided by that single line alone, so a failure of any
    stage is returned as [None] without a second read. *)
Theorem read_arduino_data_single_read st s :
  ser st = Some s →
  read_arduino_data st
  = (Return (read_result (feed s (pos s))), after_readline s st) ∧
  ser (snd (read_arduino_data st)) = Some {| feed := feed s; pos := S (pos s) |} ∧
  calls (snd (read_arduino_data st)) = CallReadline :: calls st ∧
  readline_calls (snd (read_arduino_data st)) = S (readline_calls st).
Proof.
  intros Hs. rewrite read_arduino_data_eq. unfold read_outcome, read_state.
  rewrite Hs. simpl. repeat split.
Qed.

Lemma read_arduino_data_single_read_witness :
  read_arduino_data (lifespan NoArtifact (Some sample_port))
  = (Return (read_result (feed sample_port (pos sample_port))),
     after_readline sample_port (lifespan NoArtifact (Some sample_port))) ∧
  ser (snd (read_arduino_data (lifespan NoArtifact (Some sample_port))))
  = Some {| feed := feed sample_port; pos := S (pos sample_port) |} ∧
  calls (snd (read_arduino_data (lifespan NoArtifact (Some sample_port))))
  = CallReadline :: calls (lifespan NoArtifact (Some sample_port)) ∧
  readline_calls (snd (read_arduino_data (lifespan NoArtifact (Some sample_port))))
  = S (readline_calls (lifespan NoArtifact (Some sample_port))).
Proof.
  apply (read_arduino_data_single_read (lifespan NoArtifact (Some sample_port)) sample_port).
  reflexivity.
Defined.

(** Anything but a dict raises on the way to the validator. *)
Lemma accept_not_dict v : (∀ d, v ≠ PyDict d) → ∃ e, accept v = Raise e.
Proof.
  intros Hv. destruct v as [| | | |l|d]; unfold accept; eauto.
  - destruct (existsb (is_str "PM25") l); eauto.
  - by destruct (Hv d).
Qed.

(** The failure stages are exactly the reads that return [None]. *)
Lemma read_failure_iff st : read_failure st ↔ read_outcome st = None.
Proof.
  unfold read_outcome. split.
  - intros [H | s H Hr | s H Hr | s H Hr | s H Hr | s v H Hr Hv | s d H Hr Hv];
      rewrite H; try done; unfold read_result; rewrite Hr; simpl; try done.
    + destruct (accept_not_dict v Hv) as [e ->]. done.
    + by destruct (validate_sensor_data (rename_pm25 d)) as [[|]|].
  - destruct (ser st) as [s|] eqn:Hs; [|intros _; by apply ConnectionUnavailable].
    unfold read_result.
    destruct (feed s (pos s)) as [| | | |v] eqn:Hr; simpl; intros Hnone.
    + by eapply PortError.
    + by eapply ReadTimeout.
    + by eapply DecodeError.
    + by eapply MalformedText.
    + destruct v as [| | | | |d];
        try (by eapply MalformedShape; [done..|intros d' ?; discriminate]).
      eapply ValidationFailed; [done..|].
      simpl in Hnone. intros Hok. by rewrite Hok in Hnone.
Qed.

(** ** Projection onto the feature set *)

Lemma project_lookup features (sensor_data input_data : dict) :
  project features sensor_data = Return input_data →
  ∀ k, input_data !! k = if bool_decide (k ∈ features) then sensor_data !! k else None.
Proof.
  revert input_data. induction features as [|f fs IH]; simpl; intros input_data.
  - intros [= <-] k. by rewrite lookup_empty.
  - destruct (sensor_data !! f) as [v|] eqn:Hf; [|done].
    destruct (project fs sensor_data) as [rest|]; [|done].
    intros [= <-] k. destruct (decide (k = f)) as [->|Hne].
    + rewrite lookup_insert_eq, bool_decide_eq_true_2; [done|]. apply list_elem_of_here.
    + rewrite lookup_insert_ne, (IH rest eq_refl k) by done.
      destruct (decide (k ∈ fs)) as [Hin|Hout].
      * rewrite !bool_decide_eq_true_2; [done| |done]. by apply elem_of_cons; right.
      * rewrite !bool_decide_eq_false_2; [done| |done].
        intros [?|?]%elem_of_cons; done.
Qed.

Lemma project_total features (sensor_data : dict) :
  (∀ f, f ∈ features → is_Some (sensor_data !! f)) →
  ∃ input_data, project features sensor_data = Return input_data.
Proof.
  induction features as [|f fs IH]; simpl; intros Hall; [eauto|].
  destruct (Hall f (list_elem_of_here _ _)) as [v ->].
  destruct IH as [rest ->]; [|eauto].
  intros f' Hf'. apply Hall. by apply elem_of_cons; right.
Qed.

(** A valid record holds every required feature, and not as a null. *)
Lemma valid_has_required (data : dict) field :
  validate_sensor_data data = Return true → field ∈ REQUIRED_FEATURES →
  ∃ v, data !! field = Some v ∧ v ≠ PyNone.
Proof.
  intros Hok Hreq. destruct (required_in_ranges field Hreq) as [[lo hi] Hr].
  unfold validate_sensor_data in Hok. rewrite validate_fields_true in Hok.
  specialize (Hok _ Hr). unfold check_field, dict_get in Hok.
  rewrite (bool_decide_eq_true_2 _ Hreq) in Hok.
  destruct (data !! field) as [v|]; [|done].
  exists v. split; [done|]. intros ->. done.
Qed.

Lemma valid_not_falsy (data : dict) :
  validate_sensor_data data = Return true → falsy (Some data) = false.
Proof.
  intros Hok. destruct (valid_has_required data "PM10" Hok) as [v [Hv _]].
  { unfold REQUIRED_FEATURES. rewrite !elem_of_cons. eauto. }
  simpl. apply Nat.eqb_neq. apply map_size_non_empty_iff.
  intros ->. by rewrite lookup_empty in Hv.
Qed.

Lemma data_frame_project (sensor_data input_data : dict) :
  project REQUIRED_FEATURES sensor_data = Return input_data →
  data_frame input_data REQUIRED_FEATURES = map (dict_get sensor_data) REQUIRED_FEATURES.
Proof.
  intros Hp. unfold data_frame. apply map_ext_in. intros k Hk.
  unfold dict_get. rewrite (project_lookup _ _ _ Hp k).
  rewrite bool_decide_eq_true_2; [done|]. by apply list_elem_of_In.
Qed.

Lemma project_dom features (sensor_data input_data : dict) :
  project features sensor_data = Return input_data →
  dom input_data = list_to_set features.
Proof.
  revert input_data. induction features as [|f fs IH]; simpl; intros input_data.
  - intros [= <-]. by rewrite dom_empty_L.
  - destruct (sensor_data !! f) as [v|]; [|done].
    destruct (project fs sensor_data) as [rest|]; [|done].
    intros [= <-]. by rewrite dom_insert_L, (IH rest eq_refl).
Qed.

(** ** The handlers *)

Section HandlerProperties.

Variable py_round : number -> number.
Variable py_str : exn -> string.

Lemma predict_block_eq d st :
  predict_block py_round d st =
  match project REQUIRED_FEATURES d with
  | Raise e => (Raise e, st)
  | Return input_data =>
      match model st with
      | None => (Raise model_not_loaded, st)
      | Some m =>
          let input_df := data_frame input_data REQUIRED_FEATURES in
          let st' := {| ser := ser st; model := model st;
                        calls := CallPredict input_df :: calls st |} in
          match predict m input_df with
          | Raise e => (Raise e, st')
          | Return prediction =>
              (Return {| aqi := py_round prediction;
                         status := get_aqi_status prediction;
                         sensor_data :=
                           <["hum" := dict_get d "hum"]>
                             (<["temp" := dict_get d "temp"]> input_data) |}, st')
          end
      end
  end.
Proof.
  unfold predict_block, m_bind, m_lift, m_get, m_raise, m_ret, call_predict.
  destruct (project REQUIRED_FEATURES d) as [input_data|e]; [|reflexivity].
  destruct (model st) as [m|] eqn:Hm; [|reflexivity].
  simpl. rewrite Hm. by destruct (predict m _).
Qed.

Lemma get_aqi_prediction_eq st :
  get_aqi_prediction py_round py_str st =
  match read_outcome st with
  | Some d =>
      if falsy (Some d) then (Raise sensor_read_failed, read_state st)
      else
        match predict_block py_round d (read_state st) with
        | (Return resp, st') => (Return resp, st')
        | (Raise e, st') =>
            (Raise (HTTPException 500 ("Prediction error: " +:+ py_str e)), st')
        end
  | None => (Raise sensor_read_failed, read_state st)
  end.
Proof.
  unfold get_aqi_prediction, m_bind. rewrite read_arduino_data_eq.
  destruct (read_outcome st) as [d|]; [|reflexivity].
  destruct (falsy (Some d)); [reflexivity|].
  unfold m_try, m_raise. by destruct (predict_block py_round d (read_state st)) as [[|] ?].
Qed.

(** C7: whichever stage of the read fails (no open connection, a port
    error, a timeout, bytes that do not decode, text that is not JSON, a
    value that is not an object, a record the validator does not accept),
    the prediction query raises the same error, status 500 with the
    detail "Failed to read sensor data", and returns no payload. *)
Theorem sensor_read_failure_is_uniform st :
  read_failure st →
  fst (get_aqi_prediction py_round py_str st) = Raise sensor_read_failed.
Proof.
  intros Hfail. apply read_failure_iff in Hfail.
  rewrite get_aqi_prediction_eq. by rewrite Hfail.
Qed.

(** With no model loaded, a query that read a valid record stops at the
    guard, whose error the handler's catch-all wraps again. *)
Lemma model_guard_is_rewrapped st d :
  model st = None → read_outcome st = Some d →
  get_aqi_prediction py_round py_str st
  = (Raise (HTTPException 500 ("Prediction error: " +:+ py_str model_not_loaded)),
     read_state st) ∧
  predict_block py_round d (read_state st) = (Raise model_not_loaded, read_state st).
Proof.
  intros Hm Hd. pose proof (read_outcome_valid st d Hd) as Hok.
  rewrite get_aqi_prediction_eq, Hd, (valid_not_falsy d Hok).
  rewrite predict_block_eq, read_state_model, Hm.
  destruct (project_total REQUIRED_FEATURES d) as [input_data ->]; [|done].
  intros f Hf. destruct (valid_has_required d f Hok Hf) as [v [-> _]]. eauto.
Qed.

Lemma get_aqi_prediction_no_model st :
  model st = None →
  snd (get_aqi_prediction py_round py_str st) = read_state st ∧
  ∃ detail, fst (get_aqi_prediction py_round py_str st) = Raise (HTTPException 500 detail).
Proof.
  intros Hm. destruct (read_outcome st) as [d|] eqn:Hd.
  - destruct (model_guard_is_rewrapped st d Hm Hd) as [-> _]. simpl. eauto.
  - rewrite get_aqi_prediction_eq, Hd. simpl. unfold sensor_read_failed. eauto.
Qed.

Lemma serve_no_model r st :
  model st = None →
  model (serve py_round py_str r st) = None ∧
  predict_calls (serve py_round py_str r st) = predict_calls st.
Proof.
  intros Hm. destruct r; simpl; [done|].
  destruct (get_aqi_prediction_no_model st Hm) as [-> _].
  by rewrite read_state_model, read_state_predict_calls.
Qed.

Lemma serve_all_no_model rs st :
  model st = None →
  model (serve_all py_round py_str rs st) = None ∧
  predict_calls (serve_all py_round py_str rs st) = predict_calls st.
Proof.
  revert st. induction rs as [|r rs IH]; intros st Hm; [done|].
  destruct (serve_no_model r st Hm) as [Hm' Hc].
  destruct (IH _ Hm') as [Hm'' Hc'']. simpl.
  unfold serve_all in *. split; [done|congruence].
Qed.

Lemma lifespan_mismatch m port :
  feature_names_in_ m ≠ REQUIRED_FEATURES →
  model (lifespan (Artifact m) port) = None.
Proof. intros Hne. unfold lifespan, load_model. by rewrite bool_decide_eq_false_2. Qed.

(** C1, amended: when the model's recorded feature names differ from the
    configured feature set, start-up discards the model; after any
    sequence of requests the model is still absent, the health query
    reports [model_loaded = false], no call of [predict] has been made,
    and the next prediction query fails with status 500 without calling
    [predict]: with the sensor-read error when the read gives no valid
    record, and at the "ML model not loaded" guard when it does. *)
Theorem feature_mismatch_disables_prediction m port rs :
  feature_names_in_ m ≠ REQUIRED_FEATURES →
  let st := serve_all py_round py_str rs (lifespan (Artifact m) port) in
  model (lifespan (Artifact m) port) = None ∧
  model st = None ∧
  model_loaded (health_check st) = false ∧
  predict_calls st = 0%nat ∧
  predict_calls (snd (get_aqi_prediction py_round py_str st)) = 0%nat ∧
  (∃ detail,
     fst (get_aqi_prediction py_round py_str st) = Raise (HTTPException 500 detail)) ∧
  (fst (read_arduino_data st) = Return None →
   fst (get_aqi_prediction py_round py_str st) = Raise sensor_read_failed) ∧
  (∀ d, fst (read_arduino_data st) = Return (Some d) →
        fst (predict_block py_round d (snd (read_arduino_data st)))
        = Raise model_not_loaded).
Proof.
  intros Hne st. pose proof (lifespan_mismatch m port Hne) as H0.
  destruct (serve_all_no_model rs _ H0) as [Hm Hc]. fold st in Hm, Hc.
  change (predict_calls (lifespan (Artifact m) port)) with 0%nat in Hc.
  destruct (get_aqi_prediction_no_model st Hm) as [Hst Hfail].
  split; [done|]. split; [done|].
  split; [unfold health_check; simpl; by rewrite Hm|].
  split; [done|].
  split; [by rewrite Hst, read_state_predict_calls|].
  split; [done|].
  rewrite read_arduino_data_eq. simpl. split.
  - intros [= Hd]. rewrite get_aqi_prediction_eq. by rewrite Hd.
  - intros d [= Hd]. by destruct (model_guard_is_rewrapped st d Hm Hd) as [_ ->].
Qed.

(** C6, amended: a successful prediction query read a valid record and
    got a prediction from the model on its four required features in
    order; the response holds that prediction rounded, the status of
    that (unrounded) prediction, and an echo with exactly six keys: the
    four required features with the values of the record, and both temp
    and hum, each with the value of the record or null when the record
    lacks it. *)
Theorem get_aqi_prediction_success st resp st' :
  get_aqi_prediction py_round py_str st = (Return resp, st') →
  ∃ d m p,
    fst (read_arduino_data st) = Return (Some d) ∧
    model st = Some m ∧
    predict m (map (dict_get d) REQUIRED_FEATURES) = Return p ∧
    aqi resp = py_round p ∧
    status resp = get_aqi_status p ∧
    dom (sensor_data resp) = list_to_set (REQUIRED_FEATURES ++ ["temp"; "hum"]) ∧
    (∀ f, f ∈ REQUIRED_FEATURES →
          is_Some (d !! f) ∧ sensor_data resp !! f = d !! f) ∧
    sensor_data resp !! "temp" = Some (dict_get d "temp") ∧
    sensor_data resp !! "hum" = Some (dict_get d "hum").
Proof.
  rewrite get_aqi_prediction_eq.
  destruct (read_outcome st) as [d|] eqn:Hd; [|done].
  destruct (falsy (Some d)); [done|].
  rewrite predict_block_eq, read_state_model.
  destruct (project REQUIRED_FEATURES d) as [input_data|] eqn:Hp; [|done].
  destruct (model st) as [m|]; [|done]. cbv zeta.
  rewrite (data_frame_project d input_data Hp).
  destruct (predict m _) as [p|] eqn:Hpred; [|done].
  intros [= <- <-]. exists d, m, p. simpl.
  pose proof (read_outcome_valid st d Hd) as Hok.
  split; [by rewrite read_arduino_data_eq, Hd|].
  do 4 (split; [done|]).
  split; [rewrite !dom_insert_L, (project_dom _ _ _ Hp); set_solver|].
  split.
  - intros f Hf. destruct (valid_has_required d f Hok Hf) as [v [Hv _]].
    split; [by rewrite Hv|].
    rewrite !lookup_insert_ne, (project_lookup _ _ _ Hp f).
    + by rewrite bool_decide_eq_true_2.
    + intros <-. revert Hf. apply (bool_decide_unpack _). by vm_compute.
    + intros <-. revert Hf. apply (bool_decide_unpack _). by vm_compute.
  - split; [by rewrite lookup_insert_ne, lookup_insert_eq|].
    by rewrite lookup_insert_eq.
Qed.

End HandlerProperties.

Lemma sensor_read_failure_is_uniform_witness :
  fst (get_aqi_prediction round2 exn_str (lifespan (Artifact stub_model) None))
  = Raise sensor_read_failed.
Proof.
  apply (sensor_read_failure_is_uniform round2 exn_str
           (lifespan (Artifact stub_model) None)).
  apply ConnectionUnavailable. reflexivity.
Defined.

Lemma feature_mismatch_disables_prediction_witness :
  let st := serve_all round2 exn_str [GetAqi; GetHealth; GetAqi]
              (lifespan (Artifact shuffled_model) (Some sample_port)) in
  model (lifespan (Artifact shuffled_model) (Some sample_port)) = None ∧
  model st = None ∧
  model_loaded (health_check st) = false ∧
  predict_calls st = 0%nat ∧
  predict_calls (snd (get_aqi_prediction round2 exn_str st)) = 0%nat ∧
  (∃ detail,
     fst (get_aqi_prediction round2 exn_str st) = Raise (HTTPException 500 detail)) ∧
  (fst (read_arduino_data st) = Return None →
   fst (get_aqi_prediction round2 exn_str st) = Raise sensor_read_failed) ∧
  (∀ d, fst (read_arduino_data st) = Return (Some d) →
        fst (predict_block round2 d (snd (read_arduino_data st)))
        = Raise model_not_loaded).
Proof.
  apply (feature_mismatch_disables_prediction round2 exn_str shuffled_model
           (Some sample_port) [GetAqi; GetHealth; GetAqi]).
  simpl. discriminate.
Defined.

(** C1 as stated fails: with a mismatching model and a port that did not
    open, the prediction query fails with the sensor-read error, which is
    not the model-unavailable error. *)
Lemma mismatch_with_closed_port_is_sensor_failure :
  feature_names_in_ shuffled_model ≠ REQUIRED_FEATURES ∧
  fst (get_aqi_prediction round2 exn_str (lifespan (Artifact shuffled_model) None))
  = Raise sensor_read_failed ∧
  sensor_read_failed ≠ model_not_loaded.
Proof. repeat split; discriminate. Qed.

(** With a valid line on the port the same service answers with the guard's
    error wrapped by the handler's catch-all. *)
Example mismatch_with_valid_line :
  fst (get_aqi_prediction round2 exn_str
         (lifespan (Artifact shuffled_model) (Some sample_port)))
  = Raise (HTTPException 500 "Prediction error: 500: ML model not loaded").
Proof. reflexivity. Qed.

Lemma get_aqi_prediction_success_witness :
  ∃ d m p,
    fst (read_arduino_data sample_state) = Return (Some d) ∧
    model sample_state = Some m ∧
    predict m (map (dict_get d) REQUIRED_FEATURES) = Return p ∧
    aqi sample_response = round2 p ∧
    status sample_response = get_aqi_status p ∧
    dom (sensor_data sample_response)
    = list_to_set (REQUIRED_FEATURES ++ ["temp"; "hum"]) ∧
    (∀ f, f ∈ REQUIRED_FEATURES →
          is_Some (d !! f) ∧ sensor_data sample_response !! f = d !! f) ∧
    sensor_data sample_response !! "temp" = Some (dict_get d "temp") ∧
    sensor_data sample_response !! "hum" = Some (dict_get d "hum").
Proof.
  apply (get_aqi_prediction_success round2 exn_str sample_state sample_response
           (snd (get_aqi_prediction round2 exn_str sample_state))).
  vm_compute. reflexivity.
Defined.

(** C6 as stated fails: the sample record has neither temp nor hum, the
    query succeeds, and both keys are in the echo, holding null. *)
Lemma echo_keeps_absent_optional_fields :
  fst (read_arduino_data sample_state) = Return (Some canonical_sample) ∧
  canonical_sample !! "temp" = None ∧
  canonical_sample !! "hum" = None ∧
  fst (get_aqi_prediction round2 exn_str sample_state) = Return sample_response ∧
  sensor_data sample_response !! "temp" = Some PyNone ∧
  sensor_data sample_response !! "hum" = Some PyNone ∧
  "temp" ∈ dom (sensor_data sample_response) ∧
  "hum" ∈ dom (sensor_data sample_response).
Proof.
  repeat split; try (vm_compute; reflexivity);
    apply elem_of_dom; eexists; vm_compute; reflexivity.
Qed.

(** * Further properties of the code *)

(** ** The validator, value by value *)

Lemma check_field_ext (d d' : dict) entry :
  dict_get d entry.1 = dict_get d' entry.1 → check_field d entry = check_field d' entry.
Proof.
  destruct entry as [f [lo hi]]. simpl. intros H. unfold check_field. by rewrite H.
Qed.

(** The verdict depends on the record only through [data.get] on the
    fields of the table. *)
Lemma validate_fields_ext rs (d d' : dict) :
  (∀ e, e ∈ rs → dict_get d e.1 = dict_get d' e.1) →
  validate_fields rs d = validate_fields rs d'.
Proof.
  induction rs as [|e rs IH]; intros Hsame; [done|]. simpl.
  rewrite (check_field_ext d d' e) by (apply Hsame; apply list_elem_of_here).
  rewrite IH; [done|]. intros e' He'. apply Hsame. by apply elem_of_cons; right.
Qed.

(** The one check that does not pass decides the outcome. *)
Lemma validate_fields_at rs field (data : dict) r :
  r ≠ Return true →
  (∀ e, e ∈ rs → e.1 ≠ field → check_field data e = Return true) →
  (∀ e, e ∈ rs → e.1 = field → check_field data e = r) →
  (∃ e, e ∈ rs ∧ e.1 = field) →
  validate_fields rs data = r.
Proof.
  intros Hr. induction rs as [|e rs IH]; intros Hother Hfield [e0 [Hin He0]].
  - by apply elem_of_nil in Hin.
  - simpl. destruct (decide (e.1 = field)) as [Heq|Hne].
    + rewrite (Hfield e (list_elem_of_here _ _) Heq).
      destruct r as [[|]|]; done.
    + rewrite (Hother e (list_elem_of_here _ _) Hne).
      apply IH.
      * intros e' Hin'. apply Hother. by apply elem_of_cons; right.
      * intros e' Hin'. apply Hfield. by apply elem_of_cons; right.
      * apply elem_of_cons in Hin as [->|Hin]; [done|]. eauto.
Qed.

Lemma validate_insert field lo hi v (data : dict) :
  (field, (lo, hi)) ∈ ranges → otherwise_valid field data →
  validate_sensor_data (<[field := v]> data)
  = check_field (<[field := v]> data) (field, (lo, hi)).
Proof.
  intros Hin Hother.
  assert (Hhere : ∀ e, e ∈ ranges → e.1 = field → e = (field, (lo, hi))).
  { intros [f r] He Hf. simpl in Hf. subst f.
    destruct r as [lo' hi']. by rewrite (ranges_functional _ _ _ He Hin). }
  unfold validate_sensor_data.
  destruct (check_field (<[field := v]> data) (field, (lo, hi))) as [[|]|e] eqn:Hc.
  - apply validate_fields_true. intros e He.
    destruct (decide (e.1 = field)) as [Heq|Hne].
    + by rewrite (Hhere e He Heq).
    + rewrite check_field_insert_ne by done. by apply Hother.
  - apply (validate_fields_at _ field); [done| | |by exists (field, (lo, hi))].
    + intros e He Hne. rewrite check_field_insert_ne by done. by apply Hother.
    + intros e He Heq. by rewrite (Hhere e He Heq).
  - apply (validate_fields_at _ field); [done| | |by exists (field, (lo, hi))].
    + intros e' He Hne. rewrite check_field_insert_ne by done. by apply Hother.
    + intros e' He Heq. by rewrite (Hhere e' He Heq).
Qed.

Lemma check_field_number (data : dict) field lo hi n :
  check_field (<[field := PyNum n]> data) (field, (lo, hi))
  = Return (num_le (of_Z lo) n && num_le n (of_Z hi)).
Proof. unfold check_field. by rewrite dict_get_insert_eq. Qed.

Lemma sample_table_entry : ("NH3", (0, 500)) ∈ ranges.
Proof. unfold ranges. rewrite !elem_of_cons. eauto 10. Qed.

(** X1: for a field of the table and a record whose other checks pass, a
    finite number is accepted exactly when it lies between the declared
    bounds, both included, and makes the validator return [False] exactly
    when it lies below the minimum or above the maximum. *)
Theorem validate_sensor_data_range field lo hi (data : dict) (q : Q) :
  (field, (lo, hi)) ∈ ranges →
  otherwise_valid field data →
  (validate_sensor_data (<[field := PyNum (Fin q)]> data) = Return true
   ↔ (inject_Z lo <= q ∧ q <= inject_Z hi)%Q) ∧
  (validate_sensor_data (<[field := PyNum (Fin q)]> data) = Return false
   ↔ (q < inject_Z lo ∨ inject_Z hi < q)%Q).
Proof.
  intros Hin Hother. rewrite (validate_insert field lo hi) by done.
  rewrite check_field_number. unfold of_Z.
  destruct (num_le (Fin (inject_Z lo)) (Fin q)) eqn:H1;
    destruct (num_le (Fin q) (Fin (inject_Z hi))) eqn:H2; simpl;
    repeat match goal with
           | H : num_le (Fin _) (Fin _) = true |- _ => apply num_le_Fin in H
           | H : num_le (Fin _) (Fin _) = false |- _ => apply num_le_Fin_false in H
           end;
    (split; split; intros H; try done; try (split; done); try (by left); try (by right);
     exfalso; destruct_and?; destruct_or?; lra).
Qed.

Lemma validate_sensor_data_range_witness :
  (validate_sensor_data (<["NH3" := PyNum (Fin (1234 # 10))]> canonical_sample) = Return true
   ↔ (inject_Z 0 <= 1234 # 10 ∧ 1234 # 10 <= inject_Z 500)%Q) ∧
  (validate_sensor_data (<["NH3" := PyNum (Fin (1234 # 10))]> canonical_sample) = Return false
   ↔ (1234 # 10 < inject_Z 0 ∨ inject_Z 500 < 1234 # 10)%Q).
Proof.
  apply (validate_sensor_data_range "NH3" 0 500 canonical_sample (1234 # 10)).
  - apply sample_table_entry.
  - apply canonical_sample_otherwise_valid.
Defined.

(** X2: NaN, Infinity and -Infinity, which [json.loads] lets through, are
    never within bounds: a record that holds one of them in a field of the
    table is never judged valid, and when its other checks pass the
    validator returns [False]. *)
Theorem validate_sensor_data_not_finite field lo hi (data : dict) n :
  (field, (lo, hi)) ∈ ranges →
  (∀ q, n ≠ Fin q) →
  validate_sensor_data (<[field := PyNum n]> data) ≠ Return true ∧
  (otherwise_valid field data →
   validate_sensor_data (<[field := PyNum n]> data) = Return false).
Proof.
  intros Hin Hn.
  assert (Hc : check_field (<[field := PyNum n]> data) (field, (lo, hi)) = Return false).
  { rewrite check_field_number. destruct n as [q| | |]; try done. by destruct (Hn q). }
  split.
  - intros Hok. unfold validate_sensor_data in Hok.
    rewrite validate_fields_true in Hok. specialize (Hok _ Hin). congruence.
  - intros Hother. by rewrite (validate_insert field lo hi).
Qed.

Lemma validate_sensor_data_not_finite_witness :
  validate_sensor_data (<["NH3" := PyNum NaN]> canonical_sample) ≠ Return true ∧
  validate_sensor_data (<["NH3" := PyNum NaN]> canonical_sample) = Return false.
Proof.
  destruct (validate_sensor_data_not_finite "NH3" 0 500 canonical_sample NaN)
    as [Hnot Hfalse].
  - apply sample_table_entry.
  - discriminate.
  - split; [exact Hnot|]. apply Hfalse. apply canonical_sample_otherwise_valid.
Defined.

(** X3: a value that is neither null nor a number (a string, a list, an
    object) in a field of the table does not make the validator return
    [False]: the comparison raises [TypeError]. *)
Theorem validate_sensor_data_type_error field lo hi (data : dict) v :
  (field, (lo, hi)) ∈ ranges →
  otherwise_valid field data →
  v ≠ PyNone → as_number v = None →
  validate_sensor_data (<[field := v]> data) = Raise TypeError.
Proof.
  intros Hin Hother Hv Hnum. rewrite (validate_insert field lo hi) by done.
  unfold check_field, between. rewrite dict_get_insert_eq, Hnum.
  by destruct v.
Qed.

Lemma validate_sensor_data_type_error_witness :
  validate_sensor_data (<["NH3" := PyStr "12"]> canonical_sample) = Raise TypeError.
Proof.
  apply (validate_sensor_data_type_error "NH3" 0 500 canonical_sample (PyStr "12")).
  - apply sample_table_entry.
  - apply canonical_sample_otherwise_valid.
  - discriminate.
  - reflexivity.
Defined.

(** X4: a JSON boolean passes every range of the table, since it compares
    as 0 or 1 and every declared range contains both. *)
Theorem validate_sensor_data_bool field lo hi (data : dict) b :
  (field, (lo, hi)) ∈ ranges →
  otherwise_valid field data →
  validate_sensor_data (<[field := PyBool b]> data) = Return true.
Proof.
  intros Hin Hother. rewrite (validate_insert field lo hi) by done.
  unfold check_field, between. rewrite dict_get_insert_eq. simpl.
  unfold of_Z, num_le. rewrite !Qle_bool_inject_Z.
  in_ranges Hin; by destruct b.
Qed.

Lemma validate_sensor_data_bool_witness :
  validate_sensor_data (<["NH3" := PyBool true]> canonical_sample) = Return true.
Proof.
  apply (validate_sensor_data_bool "NH3" 0 500 canonical_sample true).
  - apply sample_table_entry.
  - apply canonical_sample_otherwise_valid.
Defined.

(** ** The validator on whole records *)

(** X5: a stored null is to the validator what a missing key is: for
    every key, a record holding null there and the record without the key
    get the same verdict. *)
Theorem validate_sensor_data_null_is_missing (data : dict) k :
  validate_sensor_data (<[k := PyNone]> data) = validate_sensor_data (delete k data).
Proof.
  apply validate_fields_ext. intros e _.
  destruct (decide (k = e.1)) as [<-|Hne].
  - unfold dict_get. by rewrite lookup_insert_eq, lookup_delete_eq.
  - by rewrite dict_get_insert_ne, dict_get_delete_ne.
Qed.

(** X6: keys that the table does not list are not looked at: adding,
    changing or removing one leaves the verdict as it was. *)
Theorem validate_sensor_data_ignores_other_keys (data : dict) k v :
  k ∉ ranges.*1 →
  validate_sensor_data (<[k := v]> data) = validate_sensor_data data ∧
  validate_sensor_data (delete k data) = validate_sensor_data data.
Proof.
  intros Hk.
  assert (Hne : ∀ e, e ∈ ranges → k ≠ e.1).
  { intros e He ->. apply Hk. by apply list_elem_of_fmap_2. }
  split; apply validate_fields_ext; intros e He.
  - by rewrite dict_get_insert_ne by auto.
  - by rewrite dict_get_delete_ne by auto.
Qed.

Lemma validate_sensor_data_ignores_other_keys_witness :
  validate_sensor_data (<["note" := PyStr "warming up"]> canonical_sample)
  = validate_sensor_data canonical_sample ∧
  validate_sensor_data (delete "note" canonical_sample)
  = validate_sensor_data canonical_sample.
Proof.
  apply (validate_sensor_data_ignores_other_keys canonical_sample "note"
           (PyStr "warming up")).
  apply (bool_decide_unpack _). by vm_compute.
Defined.

Lemma is_None_true v : is_None v = true ↔ v = PyNone.
Proof. by destruct v. Qed.

Lemma check_field_accepted (data : dict) entry :
  check_field data entry = Return true ↔ field_accepted data entry.
Proof.
  destruct entry as [f [lo hi]]. unfold field_accepted, check_field, between,
    in_table_range. simpl.
  destruct (dict_get data f) as [|b|n|s|l|d] eqn:Hv; simpl.
  - destruct (decide (f ∈ REQUIRED_FEATURES)) as [Hreq|Hopt].
    + rewrite bool_decide_eq_true_2 by done. split; [done|]. intros [[_ ?]|?]; done.
    + rewrite bool_decide_eq_false_2 by done. split; [|done]. by left.
  - split; [intros [= ->]; by right | intros [[? _]| ->]; done].
  - split; [intros [= ->]; by right | intros [[? _]| ->]; done].
  - split; [done | intros [[? _]|?]; done].
  - split; [done | intros [[? _]|?]; done].
  - split; [done | intros [[? _]|?]; done].
Qed.

(** X7: a record is judged valid exactly when every field of the table is
    either a number within its bounds, or absent or null and not one of the
    required features. *)
Theorem validate_sensor_data_accepts_iff (data : dict) :
  validate_sensor_data data = Return true
  ↔ ∀ entry, entry ∈ ranges → field_accepted data entry.
Proof.
  unfold validate_sensor_data. rewrite validate_fields_true.
  split; intros H entry He; apply check_field_accepted; auto.
Qed.

(** ** The key rename, once more *)

Lemma rename_pm25_no_alias (data : dict) : rename_pm25 data !! "PM25" = None.
Proof.
  unfold rename_pm25. destruct (data !! "PM25") eqn:H; [|done].
  by rewrite lookup_insert_ne, lookup_delete_eq.
Qed.

(** X8: whatever the decoded object, the renamed record has no "PM25"
    key; renaming it again changes nothing; an object without the alias
    is left as it is; and the rename never adds an entry. *)
Theorem rename_pm25_normal_form (data : dict) :
  rename_pm25 data !! "PM25" = None ∧
  rename_pm25 (rename_pm25 data) = rename_pm25 data ∧
  (data !! "PM25" = None → rename_pm25 data = data) ∧
  (size (rename_pm25 data) ≤ size data)%nat.
Proof.
  split; [apply rename_pm25_no_alias|].
  split; [apply rename_pm25_absent, rename_pm25_no_alias|].
  split; [apply rename_pm25_absent|].
  unfold rename_pm25. destruct (data !! "PM25") as [v|] eqn:Hv; [|done].
  rewrite map_size_insert, map_size_delete, Hv. simpl.
  assert (size data ≠ 0)%nat.
  { apply map_size_non_empty_iff. intros ->. by rewrite lookup_empty in Hv. }
  destruct (delete "PM25" data !! "PM2.5"); simpl; lia.
Qed.

Lemma rename_pm25_normal_form_witness :
  rename_pm25 firmware_sample !! "PM25" = None ∧
  rename_pm25 (rename_pm25 firmware_sample) = rename_pm25 firmware_sample ∧
  rename_pm25 canonical_sample = canonical_sample ∧
  (size (rename_pm25 firmware_sample) ≤ size firmware_sample)%nat.
Proof.
  destruct (rename_pm25_normal_form firmware_sample) as [H1 [H2 [_ H4]]].
  destruct (rename_pm25_normal_form canonical_sample) as [_ [_ [H3 _]]].
  split; [exact H1|]. split; [exact H2|]. split; [|exact H4].
  apply H3. reflexivity.
Defined.

(** ** The reader's guarantees *)

Lemma read_result_some r d :
  read_result r = Some d →
  ∃ d0, r = Json (PyDict d0) ∧ d = rename_pm25 d0 ∧
        validate_sensor_data d = Return true.
Proof.
  intros Hr. pose proof (read_result_valid r d Hr) as Hok.
  unfold read_result in Hr. destruct r as [| | | |v]; try done. simpl in Hr.
  destruct v as [| | | |l|d0]; try done.
  - unfold accept in Hr. by destruct (existsb (is_str "PM25") l).
  - exists d0. split; [done|]. split; [|done].
    unfold accept in Hr.
    destruct (validate_sensor_data (rename_pm25 d0)) as [[|]|]; by simplify_eq.
Qed.

Lemma read_outcome_some st d :
  read_outcome st = Some d →
  ∃ s d0, ser st = Some s ∧ feed s (pos s) = Json (PyDict d0) ∧
          d = rename_pm25 d0 ∧ validate_sensor_data d = Return true ∧
          read_state st = after_readline s st.
Proof.
  unfold read_outcome, read_state. destruct (ser st) as [s|]; [|done].
  intros Hr. destruct (read_result_some _ _ Hr) as [d0 [? [? ?]]]. eauto 10.
Qed.

(** The validator's guarantee on the required features. *)
Lemma valid_row_in_range (data : dict) :
  validate_sensor_data data = Return true →
  row_in_range (map (dict_get data) REQUIRED_FEATURES).
Proof.
  intros Hok. unfold validate_sensor_data in Hok. rewrite validate_fields_true in Hok.
  assert (Hone : ∀ f lo hi, (f, (lo, hi)) ∈ ranges → f ∈ REQUIRED_FEATURES →
                 ∃ lo' hi', (f, (lo', hi')) ∈ ranges ∧
                            in_table_range lo' hi' (dict_get data f) = true).
  { intros f lo hi Hin Hreq. exists lo, hi. split; [done|].
    destruct (proj1 (check_field_accepted data (f, (lo, hi))) (Hok _ Hin))
      as [[_ Hopt]|Hrange]; done. }
  unfold row_in_range, REQUIRED_FEATURES. simpl.
  do 4 (constructor;
        [ eapply Hone; [ unfold ranges; rewrite !elem_of_cons; eauto 10
                       | unfold REQUIRED_FEATURES; rewrite !elem_of_cons; eauto 10 ]
        | ]).
  constructor.
Qed.

(** X9: the reader never raises, whatever the port delivers, and it never
    touches the model or calls it; without an open connection it returns
    [None] at once and leaves the whole state as it was. *)
Theorem read_arduino_data_never_raises st :
  (∃ o, fst (read_arduino_data st) = Return o) ∧
  model (snd (read_arduino_data st)) = model st ∧
  predict_calls (snd (read_arduino_data st)) = predict_calls st ∧
  (ser st = None → read_arduino_data st = (Return None, st)).
Proof.
  rewrite read_arduino_data_eq. simpl.
  split; [eauto|]. split; [apply read_state_model|].
  split; [apply read_state_predict_calls|].
  intros Hs. unfold read_outcome, read_state. by rewrite Hs.
Qed.

Lemma read_arduino_data_never_raises_witness :
  (∃ o, fst (read_arduino_data (lifespan NoArtifact None)) = Return o) ∧
  model (snd (read_arduino_data (lifespan NoArtifact None)))
  = model (lifespan NoArtifact None) ∧
  predict_calls (snd (read_arduino_data (lifespan NoArtifact None)))
  = predict_calls (lifespan NoArtifact None) ∧
  read_arduino_data (lifespan NoArtifact None) = (Return None, lifespan NoArtifact None).
Proof.
  destruct (read_arduino_data_never_raises (lifespan NoArtifact None))
    as [H1 [H2 [H3 H4]]].
  split; [exact H1|]. split; [exact H2|]. split; [exact H3|].
  apply H4. reflexivity.
Defined.

(** X10: a record that the reader returns came from a JSON object on an
    open port; it is that object after the key rename, the validator
    accepts it, it has no "PM25" key, and its four required features, in
    the order of the feature set, are numbers within their bounds. *)
Theorem read_arduino_data_postcondition st d :
  fst (read_arduino_data st) = Return (Some d) →
  (∃ s d0, ser st = Some s ∧ feed s (pos s) = Json (PyDict d0) ∧ d = rename_pm25 d0) ∧
  validate_sensor_data d = Return true ∧
  d !! "PM25" = None ∧
  row_in_range (map (dict_get d) REQUIRED_FEATURES).
Proof.
  rewrite read_arduino_data_eq. simpl. intros [= Hd].
  destruct (read_outcome_some st d Hd) as [s [d0 [Hs [Hf [-> [Hok _]]]]]].
  split; [eauto 10|]. split; [done|].
  split; [apply rename_pm25_no_alias|]. by apply valid_row_in_range.
Qed.

Lemma read_arduino_data_postcondition_witness :
  (∃ s d0, ser sample_state = Some s ∧ feed s (pos s) = Json (PyDict d0) ∧
           canonical_sample = rename_pm25 d0) ∧
  validate_sensor_data canonical_sample = Return true ∧
  canonical_sample !! "PM25" = None ∧
  row_in_range (map (dict_get canonical_sample) REQUIRED_FEATURES).
Proof.
  apply (read_arduino_data_postcondition sample_state canonical_sample).
  reflexivity.
Defined.

(** ** Projection *)

(** X11: the projection onto a list of features succeeds exactly when the
    record has every one of them; it then holds those keys and no other,
    with the values of the record; when it fails, it raises [KeyError] on a
    listed feature that the record lacks. *)
Theorem project_features features (record : dict) :
  ((∃ input_data, project features record = Return input_data)
   ↔ ∀ f, f ∈ features → is_Some (record !! f)) ∧
  (∀ input_data, project features record = Return input_data →
     dom input_data = list_to_set features ∧ input_data ⊆ record) ∧
  (∀ e, project features record = Raise e →
     ∃ f, e = KeyError f ∧ f ∈ features ∧ record !! f = None).
Proof.
  split; [|split].
  - split; [|apply project_total].
    intros [input_data Hp] f Hf.
    pose proof (project_lookup _ _ _ Hp f) as Hl.
    rewrite bool_decide_eq_true_2 in Hl by done.
    assert (Hd : f ∈ dom input_data).
    { rewrite (project_dom _ _ _ Hp). by apply elem_of_list_to_set. }
    apply elem_of_dom in Hd. by rewrite <- Hl.
  - intros input_data Hp. split; [by apply (project_dom _ record)|].
    apply map_subseteq_spec. intros k v Hk.
    rewrite (project_lookup _ _ _ Hp k) in Hk. by case_bool_decide.
  - induction features as [|f fs IH]; simpl; intros e; [done|].
    destruct (record !! f) as [v|] eqn:Hf.
    + destruct (project fs record) as [rest|e'] eqn:Hp; [done|].
      intros [= <-]. destruct (IH e' eq_refl) as [f' [-> [Hin Hnone]]].
      exists f'. split; [done|]. split; [by apply elem_of_cons; right | done].
    + intros [= <-]. exists f. split; [done|]. split; [apply list_elem_of_here | done].
Qed.

Lemma project_features_witness :
  ((∃ input_data, project REQUIRED_FEATURES (delete "CO" canonical_sample) = Return input_data)
   ↔ ∀ f, f ∈ REQUIRED_FEATURES → is_Some (delete "CO" canonical_sample !! f)) ∧
  dom canonical_sample = list_to_set REQUIRED_FEATURES ∧
  canonical_sample ⊆ canonical_sample ∧
  ∃ f, KeyError "CO" = KeyError f ∧ f ∈ REQUIRED_FEATURES ∧
       delete "CO" canonical_sample !! f = None.
Proof.
  destruct (project_features REQUIRED_FEATURES (delete "CO" canonical_sample))
    as [Hiff [_ Hraise]].
  destruct (project_features REQUIRED_FEATURES canonical_sample) as [_ [Hok _]].
  split; [exact Hiff|].
  destruct (Hok canonical_sample) as [Hdom Hsub]; [by vm_compute|].
  split; [exact Hdom|]. split; [exact Hsub|].
  apply Hraise. by vm_compute.
Defined.

(** ** Start-up *)

Lemma lifespan_model a port m :
  model (lifespan a port) = Some m
  ↔ a = Artifact m ∧ feature_names_in_ m = REQUIRED_FEATURES.
Proof.
  unfold lifespan, load_model. simpl. destruct a as [|e|m']; simpl.
  - split; [done | intros [? _]; done].
  - split; [done | intros [? _]; done].
  - case_bool_decide as Hf; simpl.
    + split; [intros [= ->]; done | intros [[= ->] _]; done].
    + split; [done | intros [[= ->] ?]; done].
Qed.

(** ** The handlers over the life of the process *)

Section HandlerInvariants.

Variable py_round : number -> number.
Variable py_str : exn -> string.

(** The three ways a prediction query can go. *)
Lemma get_aqi_prediction_cases st :
  (read_outcome st = None ∧
   get_aqi_prediction py_round py_str st = (Raise sensor_read_failed, read_state st)) ∨
  (∃ d, read_outcome st = Some d ∧ model st = None ∧
        get_aqi_prediction py_round py_str st
        = (Raise (HTTPException 500 ("Prediction error: " +:+ py_str model_not_loaded)),
           read_state st)) ∨
  (∃ d m, read_outcome st = Some d ∧ model st = Some m ∧
     let row := map (dict_get d) REQUIRED_FEATURES in
     let st' := {| ser := ser (read_state st); model := model st;
                   calls := CallPredict row :: calls (read_state st) |} in
     match predict m row with
     | Return p =>
         ∃ resp, get_aqi_prediction py_round py_str st = (Return resp, st') ∧
                 aqi resp = py_round p ∧ status resp = get_aqi_status p
     | Raise e =>
         get_aqi_prediction py_round py_str st
         = (Raise (HTTPException 500 ("Prediction error: " +:+ py_str e)), st')
     end).
Proof.
  destruct (read_outcome st) as [d|] eqn:Hd.
  - right. destruct (model st) as [m|] eqn:Hm.
    + right. exists d, m. split; [done|]. split; [done|].
      pose proof (read_outcome_valid st d Hd) as Hok.
      rewrite get_aqi_prediction_eq, Hd, (valid_not_falsy d Hok).
      rewrite predict_block_eq, read_state_model, Hm.
      destruct (project_total REQUIRED_FEATURES d) as [input_data Hp].
      { intros f Hf. destruct (valid_has_required d f Hok Hf) as [v [-> _]]. eauto. }
      rewrite Hp. cbv zeta. rewrite (data_frame_project d input_data Hp).
      destruct (predict m (map (dict_get d) REQUIRED_FEATURES)) as [p|e]; [|done].
      eexists. split; [reflexivity|]. done.
    + left. exists d. split; [done|]. split; [done|].
      by destruct (model_guard_is_rewrapped py_round py_str st d Hm Hd) as [-> _].
  - left. split; [done|]. by rewrite get_aqi_prediction_eq, Hd.
Qed.

(** X12: a prediction query on a valid reading with a loaded model whose
    [predict] returns succeeds: it answers with the rounded prediction and
    the status of the prediction, after exactly one [readline()] followed by
    exactly one call of [predict], on the record's four required values in
    the order of the feature set; port and model are otherwise untouched. *)
Theorem get_aqi_prediction_succeeds st d m p :
  fst (read_arduino_data st) = Return (Some d) →
  model st = Some m →
  predict m (map (dict_get d) REQUIRED_FEATURES) = Return p →
  ∃ resp st',
    get_aqi_prediction py_round py_str st = (Return resp, st') ∧
    aqi resp = py_round p ∧
    status resp = get_aqi_status p ∧
    calls st' = CallPredict (map (dict_get d) REQUIRED_FEATURES) :: CallReadline :: calls st ∧
    ser st' = ser (snd (read_arduino_data st)) ∧
    model st' = Some m.
Proof.
  intros Hr Hm Hp. rewrite read_arduino_data_eq in *. injection Hr as Hd.
  destruct (read_outcome_some st d Hd) as [s [d0 [_ [_ [_ [_ Hst]]]]]].
  destruct (get_aqi_prediction_cases st) as [[Hn _]|[[d' [_ [Hn _]]]|[d' [m' [Hd' [Hm' H]]]]]];
    [congruence..|].
  simplify_eq. cbv zeta in H. rewrite Hp in H. destruct H as [resp [-> [? ?]]].
  eexists _, _. split; [reflexivity|]. simpl. rewrite Hst. done.
Qed.

(** X13: when [predict] raises on a valid reading, the query fails with
    status 500 and the detail "Prediction error: " followed by the text of
    that exception; [predict] was called exactly once, after exactly one
    [readline()], and is not tried again. *)
Theorem get_aqi_prediction_predict_raises st d m e :
  fst (read_arduino_data st) = Return (Some d) →
  model st = Some m →
  predict m (map (dict_get d) REQUIRED_FEATURES) = Raise e →
  fst (get_aqi_prediction py_round py_str st)
  = Raise (HTTPException 500 ("Prediction error: " +:+ py_str e)) ∧
  calls (snd (get_aqi_prediction py_round py_str st))
  = CallPredict (map (dict_get d) REQUIRED_FEATURES) :: CallReadline :: calls st.
Proof.
  intros Hr Hm Hp. rewrite read_arduino_data_eq in *. injection Hr as Hd.
  destruct (read_outcome_some st d Hd) as [s [d0 [_ [_ [_ [_ Hst]]]]]].
  destruct (get_aqi_prediction_cases st) as [[Hn _]|[[d' [_ [Hn _]]]|[d' [m' [Hd' [Hm' H]]]]]];
    [congruence..|].
  simplify_eq. cbv zeta in H. rewrite Hp in H. rewrite H. simpl. by rewrite Hst.
Qed.

(** X14: a prediction query never lets any other exception through: when
    it fails, it fails with an [HTTPException] of status 500, which is
    either the sensor-read error, or a "Prediction error: " wrapping the
    model-not-loaded guard or an exception that [predict] raised; the
    [KeyError] of the feature projection never surfaces. *)
Theorem get_aqi_prediction_failures st e :
  fst (get_aqi_prediction py_round py_str st) = Raise e →
  e = sensor_read_failed ∨
  ∃ cause, e = HTTPException 500 ("Prediction error: " +:+ py_str cause) ∧
           ((model st = None ∧ cause = model_not_loaded) ∨
            (∃ m row, model st = Some m ∧ predict m row = Raise cause)).
Proof.
  destruct (get_aqi_prediction_cases st) as [[_ ->]|[[d [_ [Hm ->]]]|[d [m [_ [Hm H]]]]]];
    simpl.
  - intros [= <-]. by left.
  - intros [= <-]. right. eexists. split; [done|]. by left.
  - cbv zeta in H.
    destruct (predict m (map (dict_get d) REQUIRED_FEATURES)) as [p|e'] eqn:Hp.
    + destruct H as [resp [-> _]]. done.
    + rewrite H. simpl. intros [= <-]. right. eexists. split; [done|]. right. eauto.
Qed.

Lemma serve_state r st :
  ser (serve py_round py_str r st)
  = match r with GetAqi => ser (read_state st) | GetHealth => ser st end ∧
  model (serve py_round py_str r st) = model st ∧
  (calls (serve py_round py_str r st)
   = match r with GetAqi => calls (read_state st) | GetHealth => calls st end ∨
   ∃ d, r = GetAqi ∧ read_outcome st = Some d ∧
        calls (serve py_round py_str r st)
        = CallPredict (map (dict_get d) REQUIRED_FEATURES) :: calls (read_state st)).
Proof.
  destruct r; simpl; [by eauto|].
  destruct (get_aqi_prediction_cases st) as [[_ ->]|[[d [_ [Hm ->]]]|[d [m [Hd [Hm H]]]]]];
    simpl; rewrite ?read_state_model; [by eauto..|].
  cbv zeta in H.
  destruct (predict m (map (dict_get d) REQUIRED_FEATURES)) as [p|e'].
  - destruct H as [resp [-> _]]. simpl. eauto 10.
  - rewrite H. simpl. eauto 10.
Qed.

Lemma ser_read_state st : ser (read_state st) = advance 1 <$> ser st.
Proof.
  unfold read_state. destruct (ser st) as [s|] eqn:Hs; simpl; [|done].
  unfold advance. do 3 f_equal. lia.
Qed.

Lemma serve_all_connected rs st :
  is_Some (ser (serve_all py_round py_str rs st)) ↔ is_Some (ser st).
Proof.
  revert st. induction rs as [|r rs IH]; intros st; [done|].
  change (serve_all py_round py_str (r :: rs) st)
    with (serve_all py_round py_str rs (serve py_round py_str r st)).
  rewrite IH. destruct (serve_state r st) as [-> _].
  destruct r; [done|]. by rewrite ser_read_state, fmap_is_Some.
Qed.

(** X15: requests never open or close the connection and never change
    what the port will deliver: after any sequence of requests a port that
    was open is the same port, moved on by exactly one line for each
    prediction request, and a missing connection is still missing; this is
    also the port that shutdown closes. *)
Theorem serve_all_connection rs st :
  ser (serve_all py_round py_str rs st) = advance (aqi_requests rs) <$> ser st ∧
  lifespan_cleanup (serve_all py_round py_str rs st) = advance (aqi_requests rs) <$> ser st.
Proof.
  assert (H : ser (serve_all py_round py_str rs st) = advance (aqi_requests rs) <$> ser st);
    [|by split].
  revert st. induction rs as [|r rs IH]; intros st.
  - simpl. destruct (ser st) as [[f p]|]; [|done]. simpl. unfold advance. simpl.
    do 2 f_equal. lia.
  - change (serve_all py_round py_str (r :: rs) st)
      with (serve_all py_round py_str rs (serve py_round py_str r st)).
    rewrite IH. destruct (serve_state r st) as [-> _].
    destruct r; simpl; [done|]. rewrite ser_read_state.
    destruct (ser st) as [s|]; [|done]. simpl. unfold advance. simpl.
    do 2 f_equal. lia.
Qed.

Lemma serve_all_model rs st : model (serve_all py_round py_str rs st) = model st.
Proof.
  revert st. induction rs as [|r rs IH]; intros st; [done|].
  change (serve_all py_round py_str (r :: rs) st)
    with (serve_all py_round py_str rs (serve py_round py_str r st)).
  rewrite IH. by destruct (serve_state r st) as [_ [-> _]].
Qed.

(** X16: the model reference is read-only after start-up, and the health
    report is the same after any sequence of requests: neither a failed
    read nor a failed prediction changes what the service reports. *)
Theorem serve_all_health rs st :
  model (serve_all py_round py_str rs st) = model st ∧
  health_check (serve_all py_round py_str rs st) = health_check st.
Proof.
  split; [apply serve_all_model|].
  unfold health_check. rewrite serve_all_model. f_equal.
  apply bool_decide_ext, serve_all_connected.
Qed.

(** X17: a model is in service exactly when the artifact loaded and its
    recorded feature names equal the configured feature set, and this holds
    at every later moment: the service never predicts with a model trained
    on other features, and never recovers a model that failed to load. *)
Theorem served_model_matches a port rs m :
  model (serve_all py_round py_str rs (lifespan a port)) = Some m
  ↔ a = Artifact m ∧ feature_names_in_ m = REQUIRED_FEATURES.
Proof. rewrite serve_all_model. apply lifespan_model. Qed.

Lemma calls_read_state st :
  calls (read_state st)
  = match ser st with Some _ => CallReadline :: calls st | None => calls st end.
Proof. unfold read_state. by destruct (ser st). Qed.

Lemma serve_counts r st :
  ∃ k, (k ≤ when_open (ser st) (aqi_requests [r]))%nat ∧
       predict_calls (serve py_round py_str r st) = (predict_calls st + k)%nat ∧
       readline_calls (serve py_round py_str r st)
       = (readline_calls st + when_open (ser st) (aqi_requests [r]))%nat.
Proof.
  destruct (serve_state r st) as [_ [_ [Hc|[d [-> [Hd Hc]]]]]].
  - exists 0%nat. unfold predict_calls, readline_calls. rewrite Hc.
    rewrite Nat.add_0_r. split; [lia|]. split; [|destruct r].
    + destruct r; [done|]. rewrite calls_read_state.
      destruct (ser st); [|done]. by rewrite filter_cons_False.
    + destruct (ser st); simpl; lia.
    + rewrite calls_read_state. destruct (ser st); [|simpl; lia].
      rewrite filter_cons_True by done. simpl. lia.
  - destruct (read_outcome_some st d Hd) as [s [_ [Hs _]]].
    exists 1%nat. unfold predict_calls, readline_calls.
    rewrite Hc, calls_read_state, Hs.
    repeat first [rewrite filter_cons_True by done | rewrite filter_cons_False by done].
    simpl. lia.
Qed.

Lemma serve_all_counts rs st :
  ∃ k, (k ≤ when_open (ser st) (aqi_requests rs))%nat ∧
       predict_calls (serve_all py_round py_str rs st) = (predict_calls st + k)%nat ∧
       readline_calls (serve_all py_round py_str rs st)
       = (readline_calls st + when_open (ser st) (aqi_requests rs))%nat.
Proof.
  revert st. induction rs as [|r rs IH]; intros st.
  - exists 0%nat. simpl. destruct (ser st); simpl; lia.
  - change (serve_all py_round py_str (r :: rs) st)
      with (serve_all py_round py_str rs (serve py_round py_str r st)).
    destruct (IH (serve py_round py_str r st)) as [k [Hk [Hp Hr]]].
    destruct (serve_counts r st) as [k1 [Hk1 [Hp1 Hr1]]].
    assert (Hser : when_open (ser (serve py_round py_str r st)) (aqi_requests rs)
                   = when_open (ser st) (aqi_requests rs)).
    { destruct (serve_state r st) as [-> _]. destruct r; [done|].
      rewrite ser_read_state. by destruct (ser st). }
    rewrite Hser in *. exists (k1 + k)%nat. rewrite Hp, Hr, Hp1, Hr1.
    destruct (ser st); destruct r; simpl in *; lia.
Qed.

(** X18: over the life of the process, on an open port every prediction
    request makes exactly one [readline()] and a health request makes none,
    without a connection nothing is ever read, and [predict] is never
    called more often than a line was read. *)
Theorem service_call_counts a port rs :
  readline_calls (serve_all py_round py_str rs (lifespan a port))
  = when_open port (aqi_requests rs) ∧
  (predict_calls (serve_all py_round py_str rs (lifespan a port))
   ≤ readline_calls (serve_all py_round py_str rs (lifespan a port)))%nat.
Proof.
  destruct (serve_all_counts rs (lifespan a port)) as [k [Hk [Hp Hr]]].
  rewrite Hp, Hr. change (ser (lifespan a port)) with port in *.
  change (predict_calls (lifespan a port)) with 0%nat.
  change (readline_calls (lifespan a port)) with 0%nat.
  split; lia.
Qed.

Lemma serve_rows r st :
  (∀ row, CallPredict row ∈ calls st → row_in_range row) →
  ∀ row, CallPredict row ∈ calls (serve py_round py_str r st) → row_in_range row.
Proof.
  intros Hinv row.
  assert (Hread : CallPredict row ∈ calls (read_state st) → row_in_range row).
  { rewrite calls_read_state. destruct (ser st); [|by auto].
    intros [?|?]%elem_of_cons; [done|by auto]. }
  destruct (serve_state r st) as [_ [_ [Hc|[d [-> [Hd Hc]]]]]]; rewrite Hc.
  - destruct r; auto.
  - intros [[= ->]|?]%elem_of_cons; [|by auto].
    apply valid_row_in_range. by apply (read_outcome_valid st).
Qed.

(** X19: over the life of the process, every row on which [predict] was
    called holds exactly one value per required feature, in the order of
    the feature set, each a number within the bounds that the validator's
    table declares for that feature. *)
Theorem predict_rows_in_range a port rs row :
  CallPredict row ∈ calls (serve_all py_round py_str rs (lifespan a port)) →
  row_in_range row.
Proof.
  assert (Hgen : ∀ st, (∀ row, CallPredict row ∈ calls st → row_in_range row) →
                 ∀ row, CallPredict row ∈ calls (serve_all py_round py_str rs st) →
                        row_in_range row).
  { induction rs as [|r rs IH]; intros st Hinv; [done|].
    change (serve_all py_round py_str (r :: rs) st)
      with (serve_all py_round py_str rs (serve py_round py_str r st)).
    apply IH. by apply serve_rows. }
  apply Hgen. intros row' Hin. by apply elem_of_nil in Hin.
Qed.

End HandlerInvariants.

Lemma get_aqi_prediction_succeeds_witness :
  ∃ resp st',
    get_aqi_prediction round2 exn_str sample_state = (Return resp, st') ∧
    aqi resp = round2 (of_Z 42) ∧
    status resp = get_aqi_status (of_Z 42) ∧
    calls st' = CallPredict (map (dict_get canonical_sample) REQUIRED_FEATURES)
                  :: CallReadline :: calls sample_state ∧
    ser st' = ser (snd (read_arduino_data sample_state)) ∧
    model st' = Some stub_model.
Proof.
  apply (get_aqi_prediction_succeeds round2 exn_str sample_state canonical_sample
           stub_model (of_Z 42)); reflexivity.
Defined.

Lemma get_aqi_prediction_predict_raises_witness :
  fst (get_aqi_prediction round2 exn_str
         (lifespan (Artifact failing_model) (Some sample_port)))
  = Raise (HTTPException 500
             ("Prediction error: "
              +:+ exn_str (ForeignError "X has 4 features, but 8 were expected"))) ∧
  calls (snd (get_aqi_prediction round2 exn_str
                (lifespan (Artifact failing_model) (Some sample_port))))
  = CallPredict (map (dict_get canonical_sample) REQUIRED_FEATURES)
      :: CallReadline :: calls (lifespan (Artifact failing_model) (Some sample_port)).
Proof.
  apply (get_aqi_prediction_predict_raises round2 exn_str
           (lifespan (Artifact failing_model) (Some sample_port))
           canonical_sample failing_model); reflexivity.
Defined.

Lemma get_aqi_prediction_failures_witness :
  sensor_read_failed = sensor_read_failed ∨
  ∃ cause, sensor_read_failed = HTTPException 500 ("Prediction error: " +:+ exn_str cause) ∧
           ((model (lifespan NoArtifact None) = None ∧ cause = model_not_loaded) ∨
            (∃ m row, model (lifespan NoArtifact None) = Some m ∧
                      predict m row = Raise cause)).
Proof.
  apply (get_aqi_prediction_failures round2 exn_str (lifespan NoArtifact None)).
  reflexivity.
Defined.

Lemma predict_rows_in_range_witness :
  row_in_range [num 40; num 60; num 10; num 2].
Proof.
  apply (predict_rows_in_range round2 exn_str (Artifact stub_model)
           (Some sample_port) [GetHealth; GetAqi; GetAqi]).
  replace (calls (serve_all round2 exn_str [GetHealth; GetAqi; GetAqi]
                    (lifespan (Artifact stub_model) (Some sample_port))))
    with [CallReadline; CallPredict [num 40; num 60; num 10; num 2]; CallReadline]
    by reflexivity.
  apply list_elem_of_further, list_elem_of_here.
Defined.

(** ** The classifier on every number *)

Lemma get_aqi_status_rank n : (bucket_rank (get_aqi_status n) ≤ 5)%nat.
Proof.
  unfold get_aqi_status.
  repeat match goal with |- context [if ?b then _ else _] => destruct b end;
    vm_compute; lia.
Qed.

(** X20: on every number, NaN and the infinities included, the status is
    one of the six bucket names, and the classifier is monotone for
    Python's [<=] on all of them: a smaller number never gets a later
    bucket. *)
Theorem get_aqi_status_total_order :
  (∀ n, get_aqi_status n ∈ buckets) ∧
  (∀ a b, num_le a b = true →
          (bucket_rank (get_aqi_status a) ≤ bucket_rank (get_aqi_status b))%nat).
Proof.
  split.
  - intros n. unfold get_aqi_status, buckets.
    repeat match goal with |- context [if ?b then _ else _] => destruct b end;
      rewrite !elem_of_cons; eauto 10.
  - intros a b Hab. destruct a as [x| | |], b as [y| | |]; try discriminate Hab;
      try apply (get_aqi_status_rank _); try apply Nat.le_0_l.
    apply num_le_Fin in Hab.
    split_thresholds x; split_thresholds y; try (exfalso; lra); vm_compute; lia.
Qed.

Lemma get_aqi_status_total_order_witness :
  (bucket_rank (get_aqi_status (of_Z 120)) ≤ bucket_rank (get_aqi_status PosInf))%nat.
Proof.
  apply (proj2 get_aqi_status_total_order (of_Z 120) PosInf). reflexivity.
Defined.
